(** * Amazon Q code transformation: the job orchestrator

    A shallow embedding of
    [packages/core/src/codewhisperer/commands/startTransformByQ.ts]
    (the client-side state machine that drives a remote transformation job)
    and of the two transfer-client helpers exercised by
    [packages/core/src/test/codewhisperer/commands/transformByQ.test.ts].

    The TypeScript code works on two process-wide objects, [transformByQState]
    and [sessionPlanProgress], on the module variable [sessionJobHistory] and
    on the outside world (the editor, the remote service, the file system).
    Here all of this is one explicit [World] threaded through a state and
    exception monad [M].  Every effect on the outside (a command, a remote
    call, a notification, a log line) is appended to the world's [log]
    together with the job status at the moment the effect was issued, so
    that the order of effects and state changes can be stated and proved.

    Modelling choices:
    - the calls to the transformation service, the archive builder and the
      other collaborators are answers given by an environment [Env]; an
      answer is a value or a thrown error and may depend on the whole
      world at the call;
    - editor commands, timers, the logger and telemetry are effects that do
      not fail; [fs.writeFileSync] may throw, as the environment decides;
      [fs.rmSync], called with [force: true], is an effect that does not
      fail;
    - JavaScript runs one task at a time: between two [await]s nothing else
      happens.  At an [await] of the run the user may press Stop; the
      request is [stopTransformByQ] itself, run inside that suspension;
    - telemetry records are kept by metric name only;
    - the collaborators only answer: what they may write to the job state
      themselves is outside the sources and is not modelled. *)

From Stdlib Require Import Ascii.
From stdpp Require Import base strings list gmap fin_maps.

Local Open Scope Z_scope.

(** ** Data model *)

(** [TransformByQStatus]: the lifecycle status held by the job state. *)
Module TransformByQStatus.
Inductive t := NotStarted | Running | Succeeded | PartiallySucceeded | Failed | Cancelled.

#[global] Instance eq_dec : EqDecision t.
Proof. solve_decision. Defined.
End TransformByQStatus.

(** [StepProgress]: the coarse per-step status shown in the hub. *)
Module StepProgress.
Inductive t := Pending | Succeeded | Failed.

#[global] Instance eq_dec : EqDecision t.
Proof. solve_decision. Defined.
End StepProgress.

(** Modelled from the spec: the class behind [transformByQState] lives in
    [codewhisperer/models/model.ts], which is not part of the sources at
    hand.  The fields are those of the spec's JobState that the orchestrator
    reads or writes. *)
Record TransformByQState := mkState {
  status : TransformByQStatus.t;
  jobId : string;
  projectName : string;
  payloadFilePath : string;
  planFilePath : string;
  jobFailureErrorMessage : string;
  jobFailureMetadata : string;
  mavenName : string
}.

(** One line of the run history, as built by [processHistory]: the object
    [{ timestamp, module, status, duration, id }]. *)
Record HistoryEntry := mkHistory {
  h_timestamp : string;
  h_module : string;
  h_status : string;
  h_duration : string;
  h_id : string
}.

(** What can be thrown.  [TransformByQStoppedError] is the cancellation
    error; every other exception is a JavaScript [Error] with its message. *)
Inductive Error :=
| TransformByQStoppedError
| JsError (message : string).

#[global] Instance Error_eq_dec : EqDecision Error.
Proof. solve_decision. Defined.

Inductive Result (A : Type) :=
| Ok (a : A)
| Throw (e : Error).
Arguments Ok {A} a.
Arguments Throw {A} e.

(** The observable effects. *)
Inductive Event :=
| ExecuteCommand (command : string) (args : list string)
| SetInterval (command : string) (seconds : Z)
| ClearInterval
| Sleep (ms : Z)
| ZipCode
| UploadPayload (payload : string)
| StartJob (uploadId : string)
| PollTransformationJob (job : string) (validStates : list string)
| GetTransformationPlan (job : string)
| StopCodeTransformation (job : string)
| GetVersionData
| ThrowIfCancelled
| ShowErrorMessage (text : string) (items : list string)
| ShowInformationMessage (text : string) (items : list string)
| LoggerInfo (text : string)
| LoggerError (text : string) (cause : option Error)
| TelemetryEmit (metric : string)
| TransformationFinishedFire
| WriteFileSync (path contents : string)
| RmSync (path : string).

#[global] Instance Event_eq_dec : EqDecision Event.
Proof. solve_decision. Defined.

(** A log entry: the job status when the effect was issued, and the effect. *)
Definition Entry : Type := TransformByQStatus.t * Event.

Record World := mkWorld {
  state : TransformByQState;                       (* transformByQState *)
  sessionPlanProgress : gmap string StepProgress.t;
  resultStatus : string;                           (* codeTransformTelemetryState *)
  startTime : Z;                                   (* codeTransformTelemetryState *)
  sessionJobHistory : list HistoryEntry;
  log : list Entry
}.

(** ** The monad *)

Definition M (A : Type) : Type := World -> Result A * World.

#[global] Instance M_ret : MRet M := fun A a w => (Ok a, w).

#[global] Instance M_bind : MBind M := fun A B f c w =>
  match c w with
  | (Ok a, w1) => f a w1
  | (Throw e, w1) => (Throw e, w1)
  end.

Definition throw {A} (e : Error) : M A := fun w => (Throw e, w).

(** [try { body } catch (err) { handler err }] *)
Definition try_catch {A} (body : M A) (handler : Error -> M A) : M A := fun w =>
  match body w with
  | (Ok a, w1) => (Ok a, w1)
  | (Throw e, w1) => handler e w1
  end.

(** [try { body } catch (err) { handler err } finally { final }]: the
    [finally] block always runs; an exception it raises replaces the
    outcome of the first two blocks. *)
Definition try_catch_finally {A} (body : M A) (handler : Error -> M A) (final : M unit) : M A :=
  fun w =>
    let '(r, w2) := try_catch body handler w in
    match final w2 with
    | (Ok _, w3) => (r, w3)
    | (Throw e, w3) => (Throw e, w3)
    end.

Definition gets {A} (f : World -> A) : M A := fun w => (Ok (f w), w).
Definition modify (f : World -> World) : M unit := fun w => (Ok tt, f w).

(** *** Updates of the world *)

Definition withState (f : TransformByQState -> TransformByQState) (w : World) : World :=
  mkWorld (f (state w)) (sessionPlanProgress w) (resultStatus w) (startTime w)
          (sessionJobHistory w) (log w).

Definition withPlanProgress (f : gmap string StepProgress.t -> gmap string StepProgress.t)
    (w : World) : World :=
  mkWorld (state w) (f (sessionPlanProgress w)) (resultStatus w) (startTime w)
          (sessionJobHistory w) (log w).

Definition withResultStatus (s : string) (w : World) : World :=
  mkWorld (state w) (sessionPlanProgress w) s (startTime w) (sessionJobHistory w) (log w).

Definition withStartTime (t : Z) (w : World) : World :=
  mkWorld (state w) (sessionPlanProgress w) (resultStatus w) t (sessionJobHistory w) (log w).

Definition withHistory (h : list HistoryEntry) (w : World) : World :=
  mkWorld (state w) (sessionPlanProgress w) (resultStatus w) (startTime w) h (log w).

(** [logged e w]: [w] after the effect [e] was issued. *)
Definition logged (e : Event) (w : World) : World :=
  mkWorld (state w) (sessionPlanProgress w) (resultStatus w) (startTime w)
          (sessionJobHistory w) (log w ++ [(status (state w), e)]).

(** An effect that is issued and not waited for ([void ...], the logger). *)
Definition emit (e : Event) : M unit := modify (logged e).

(** *** The setters and getters of [transformByQState] *)

(** Modelled from the spec: the methods of the job state ([setToRunning],
    [isCancelled], [setJobId], ...) belong to the missing [model.ts]; each
    writes or reads the one field its name says (spec 3). *)
Definition setStatus (s : TransformByQStatus.t) (st : TransformByQState) : TransformByQState :=
  mkState s (jobId st) (projectName st) (payloadFilePath st) (planFilePath st)
          (jobFailureErrorMessage st) (jobFailureMetadata st) (mavenName st).

Definition setToRunning : M unit := modify (withState (setStatus TransformByQStatus.Running)).
Definition setToSucceeded : M unit := modify (withState (setStatus TransformByQStatus.Succeeded)).
Definition setToPartiallySucceeded : M unit :=
  modify (withState (setStatus TransformByQStatus.PartiallySucceeded)).
Definition setToFailed : M unit := modify (withState (setStatus TransformByQStatus.Failed)).
Definition setToCancelled : M unit := modify (withState (setStatus TransformByQStatus.Cancelled)).

Definition isRunning (w : World) : bool :=
  bool_decide (status (state w) = TransformByQStatus.Running).
Definition isCancelled (w : World) : bool :=
  bool_decide (status (state w) = TransformByQStatus.Cancelled).
Definition isSucceeded (w : World) : bool :=
  bool_decide (status (state w) = TransformByQStatus.Succeeded).
Definition isPartiallySucceeded (w : World) : bool :=
  bool_decide (status (state w) = TransformByQStatus.PartiallySucceeded).

Definition setJobId (j : string) : M unit :=
  modify (withState (fun st =>
    mkState (status st) j (projectName st) (payloadFilePath st) (planFilePath st)
            (jobFailureErrorMessage st) (jobFailureMetadata st) (mavenName st))).

Definition setPayloadFilePath (p : string) : M unit :=
  modify (withState (fun st =>
    mkState (status st) (jobId st) (projectName st) p (planFilePath st)
            (jobFailureErrorMessage st) (jobFailureMetadata st) (mavenName st))).

Definition setPlanFilePath (p : string) : M unit :=
  modify (withState (fun st =>
    mkState (status st) (jobId st) (projectName st) (payloadFilePath st) p
            (jobFailureErrorMessage st) (jobFailureMetadata st) (mavenName st))).

Definition setJobFailureErrorMessage (m : string) : M unit :=
  modify (withState (fun st =>
    mkState (status st) (jobId st) (projectName st) (payloadFilePath st) (planFilePath st)
            m (jobFailureMetadata st) (mavenName st))).

(** Modelled from the spec: [setJobDefaults] of the missing [model.ts];
    the spec has it reset the job state to its defaults, with no partial
    reset. *)
Definition defaultState : TransformByQState :=
  mkState TransformByQStatus.NotStarted "" "" "" "" "" "" "".

Definition setJobDefaults : M unit := modify (withState (fun _ => defaultState)).

(** Modelled from the spec: [getStatus] returns the status as the string
    recorded in the run history; the names are the spec's, the test checks
    ['Cancelled']. *)
Definition getStatus (w : World) : string :=
  match status (state w) with
  | TransformByQStatus.NotStarted => "NotStarted"
  | TransformByQStatus.Running => "Running"
  | TransformByQStatus.Succeeded => "Succeeded"
  | TransformByQStatus.PartiallySucceeded => "PartiallySucceeded"
  | TransformByQStatus.Failed => "Failed"
  | TransformByQStatus.Cancelled => "Cancelled"
  end.

Definition setResultStatus (s : string) : M unit := modify (withResultStatus s).

Definition setStep (step : string) (p : StepProgress.t) : M unit :=
  modify (withPlanProgress (insert step p)).

(** ** The environment *)

(** [CodeWhispererConstants] ([codewhisperer/models/constants.ts]) is not
    among the sources: its values are parameters. *)
Record Constants := mkConstants {
  failedToStartJobMessage : string;
  failedToCompleteJobMessage : string;
  transformByQCompletedMessage : string;
  transformByQPartiallyCompletedMessage : string;
  transformByQCancelledMessage : string;
  errorStoppingJobMessage : string;
  amazonQFeedbackText : string;
  validStatesForPlanGenerated : list string;
  validStatesForCheckingDownloadUrl : list string;
  transformationJobPollingIntervalSeconds : Z
}.

(** The collaborators of the orchestrator.  A remote or local call answers
    with a value or with a thrown error; the answer may depend on everything
    that happened so far, so it is a function of the world at the call.
    [userCancels] tells whether the user presses Stop while the run is
    suspended in an [await]. *)
Record Env := mkEnv {
  zipCode : World -> Result string;
  uploadPayload : string -> World -> Result string;
  startJob : string -> World -> Result string;
  pollTransformationJob : string -> list string -> World -> Result string;
  getTransformationPlan : string -> World -> Result string;
  codeModernizerStopCodeTransformation : string -> World -> Result unit;
  getVersionData : World -> string * string;
  now : World -> Z;
  calculateTotalLatency : Z -> World -> Z;
  tmpdir : string;                                      (* os.tmpdir() *)
  pathJoin : string -> string -> string;                (* path.join *)
  writeFileSync : string -> string -> World -> Result unit;   (* fs.writeFileSync *)
  chatControllers : World -> bool;   (* getChatControllers() !== undefined *)
  userCancels : World -> bool;
  (* shared/utilities/textUtilities *)
  encodeHTML : string -> string;
  convertToTimeString : Z -> string;
  convertDateToTimestamp : Z -> string
}.

(** ** Transfer client *)

(** Modelled from the spec: [getHeadersObj] of
    [service/transformByQ/transformApiHandler.ts], which is not among the
    sources.  The spec (4.2 and 6) gives the header map: the checksum, the
    content type and, only if a KMS key ARN is supplied, the two
    server-side-encryption headers. *)
Definition getHeadersObj (sha256 kmsKeyArn : string) : gmap string string :=
  let headersObj : gmap string string :=
    <["Content-Type" := "application/zip"]> (<["x-amz-checksum-sha256" := sha256]> ∅) in
  if decide (kmsKeyArn = "") then headersObj
  else <["x-amz-server-side-encryption-aws-kms-key-id" := kmsKeyArn]>
         (<["x-amz-server-side-encryption" := "aws:kms"]> headersObj).

(** ** Run history *)

(** [processHistory] (lines 419-431): the history passed in is dropped and
    a one-element array holding the current run is returned. *)
Definition processHistory (sessionJobHistory : list HistoryEntry)
    (startTime module status duration id : string) : list HistoryEntry :=
  let sessionJobHistory : list HistoryEntry := [] in
  let copyState := mkHistory startTime module status duration id in
  sessionJobHistory ++ [copyState].

Section Orchestrator.

Context (K : Constants) (env : Env).

(** A call that is awaited: the effect is issued, then the answer comes. *)
Definition call {A} (e : Event) (answer : World -> Result A) : M A := fun w =>
  let w1 := logged e w in (answer w1, w1).

Definition done_ : World -> Result unit := fun _ => Ok tt.

(** Modelled from the spec: [stopJob] of the missing
    [transformApiHandler.ts].  Spec 4.2: with an empty [jobId] it is a
    no-op and issues no remote call; otherwise it requests the
    cancellation of the job, and a failure of the request is raised to
    the caller. *)
Definition stopJob (jobId : string) : M unit :=
  if decide (jobId = "") then mret tt
  else call (StopCodeTransformation jobId) (codeModernizerStopCodeTransformation env jobId).

(** Modelled from the spec: [throwIfCancelled] of the missing
    [transformApiHandler.ts]; it raises the cancellation error when the
    job state shows [Cancelled] (spec 7, and the test 'WHEN job status is
    cancelled THEN error is thrown').  The check itself is logged. *)
Definition throwIfCancelled : M unit :=
  cancelled ← gets isCancelled;
  emit ThrowIfCancelled ;;
  if (cancelled : bool) then throw TransformByQStoppedError else mret tt.

(** [stopTransformByQ] (lines 441-481); [cancelSrc] only reaches the
    telemetry record. *)
Definition stopTransformByQ (jobId : string) : M unit :=
  running ← gets isRunning;
  if (running : bool) then
    emit (LoggerInfo "CodeTransformation: User requested to stop transformation. Stopping transformation.") ;;
    setToCancelled ;;
    setResultStatus "JobCancelled" ;;
    call (ExecuteCommand "aws.amazonq.refresh" []) done_ ;;
    call (ExecuteCommand "setContext" ["gumby.isStopButtonAvailable"; "false"]) done_ ;;
    try_catch
      (stopJob jobId ;;
       emit (ShowErrorMessage (transformByQCancelledMessage K) [amazonQFeedbackText K]))
      (fun _ =>
       emit (ShowErrorMessage (errorStoppingJobMessage K) [amazonQFeedbackText K])) ;;
    emit (TelemetryEmit "codeTransform_jobIsCancelledByUser")
  else mret tt.

(** While the run is suspended in an [await], the user may press Stop:
    the editor then runs [stopTransformByQ] with the job id held by the
    job state. *)
Definition interrupt (w : World) : World :=
  if userCancels env w then snd (stopTransformByQ (jobId (state w)) w) else w.

(** [await] inside the run: the effect is issued, the run is suspended
    (and may be interrupted by the user), then the answer comes. *)
Definition await {A} (e : Event) (answer : World -> Result A) : M A := fun w =>
  let w1 := interrupt (logged e w) in (answer w1, w1).

Definition executeCommand (command : string) (args : list string) : M unit :=
  await (ExecuteCommand command args) done_.

Definition sleep (ms : Z) : M unit := await (Sleep ms) done_.

(** ** The orchestrator *)

(** [preTransformationUploadCode] (lines 177-198) *)
Definition preTransformationUploadCode : M string :=
  executeCommand "aws.amazonq.refresh" [] ;;
  executeCommand "aws.amazonq.transformationHub.focus" [] ;;
  throwIfCancelled ;;
  uploadId ← try_catch
    (payloadFilePath ← await ZipCode (zipCode env);
     setPayloadFilePath payloadFilePath ;;
     await (UploadPayload payloadFilePath) (uploadPayload env payloadFilePath))
    (fun err =>
       emit (LoggerError "Failed to upload code due to " (Some err)) ;;
       throw err);
  sleep 2000 ;;
  throwIfCancelled ;;
  mret uploadId.

(** [startTransformationJob] (lines 200-216) *)
Definition startTransformationJob (uploadId : string) : M string :=
  jobId ← try_catch
    (await (StartJob uploadId) (startJob env uploadId))
    (fun _ =>
       setJobFailureErrorMessage (failedToStartJobMessage K) ;;
       throw (JsError "Start job failed"));
  setJobId (encodeHTML env jobId) ;;
  executeCommand "aws.amazonq.refresh" [] ;;
  sleep 2000 ;;
  throwIfCancelled ;;
  mret jobId.

(** [pollTransformationStatusUntilPlanReady] (lines 218-244).  The path
    of the plan file is what [path.join] makes of the temporary directory
    and the file name; [fs.writeFileSync] (line 238) may throw, and nothing
    catches its error here. *)
Definition pollTransformationStatusUntilPlanReady (jobId : string) : M unit :=
  try_catch
    (await (PollTransformationJob jobId (validStatesForPlanGenerated K))
           (pollTransformationJob env jobId (validStatesForPlanGenerated K)) ;;
     mret tt)
    (fun error =>
       emit (LoggerError ("CodeTransformation: " +:+ failedToCompleteJobMessage K) (Some error)) ;;
       setJobFailureErrorMessage (failedToCompleteJobMessage K) ;;
       throw (JsError "Poll job failed")) ;;
  plan ← try_catch
    (await (GetTransformationPlan jobId) (getTransformationPlan env jobId))
    (fun error =>
       emit (LoggerError ("CodeTransformation: " +:+ failedToCompleteJobMessage K) (Some error)) ;;
       setJobFailureErrorMessage (failedToCompleteJobMessage K) ;;
       throw (JsError "Get plan failed"));
  let planFilePath := pathJoin env (tmpdir env) "transformation-plan.md" in
  call (WriteFileSync planFilePath plan) (writeFileSync env planFilePath plan) ;;
  executeCommand "markdown.showPreview" [planFilePath] ;;
  setPlanFilePath planFilePath ;;
  executeCommand "setContext" ["gumby.isPlanAvailable"; "true"] ;;
  setStep "generatePlan" StepProgress.Succeeded ;;
  throwIfCancelled.

(** [pollTransformationStatusUntilComplete] (lines 246-258) *)
Definition pollTransformationStatusUntilComplete (jobId : string) : M string :=
  try_catch
    (await (PollTransformationJob jobId (validStatesForCheckingDownloadUrl K))
           (pollTransformationJob env jobId (validStatesForCheckingDownloadUrl K)))
    (fun error =>
       emit (LoggerError ("CodeTransformation: " +:+ failedToCompleteJobMessage K) (Some error)) ;;
       setJobFailureErrorMessage (failedToCompleteJobMessage K) ;;
       throw (JsError "Poll job failed")).

(** [finalizeTransformationJob] (lines 260-281) *)
Definition finalizeTransformationJob (status : string) : M unit :=
  if negb (bool_decide (status = "COMPLETED") || bool_decide (status = "PARTIALLY_COMPLETED")) then
    emit (LoggerError ("CodeTransformation: " +:+ failedToCompleteJobMessage K) None) ;;
    setStep "transformCode" StepProgress.Failed ;;
    setJobFailureErrorMessage (failedToCompleteJobMessage K) ;;
    throw (JsError "Job was not successful nor partially successful")
  else
    setToSucceeded ;;
    (if bool_decide (status = "PARTIALLY_COMPLETED") then
       setToPartiallySucceeded ;;
       setResultStatus "JobPartiallySucceeded"
     else
       setResultStatus "JobCompletedSuccessfully") ;;
    executeCommand "aws.amazonq.transformationHub.reviewChanges.reveal" [] ;;
    executeCommand "aws.amazonq.refresh" [] ;;
    setStep "transformCode" StepProgress.Succeeded.

(** [setContextVariables] (lines 483-490) *)
Definition setContextVariables : M unit :=
  executeCommand "setContext" ["gumby.wasQCodeTransformationUsed"; "true"] ;;
  executeCommand "setContext" ["gumby.isStopButtonAvailable"; "true"] ;;
  executeCommand "setContext" ["gumby.isPlanAvailable"; "false"] ;;
  executeCommand "setContext" ["gumby.isSummaryAvailable"; "false"] ;;
  executeCommand "setContext" ["gumby.reviewState"; "NotStarted"] ;;
  executeCommand "setContext" ["gumby.transformationProposalReviewInProgress"; "false"].

(** [setTransformationToRunningState] (lines 288-324) *)
Definition setTransformationToRunningState : M unit :=
  setContextVariables ;;
  setToRunning ;;
  setStep "startJob" StepProgress.Pending ;;
  setStep "buildCode" StepProgress.Pending ;;
  setStep "generatePlan" StepProgress.Pending ;;
  setStep "transformCode" StepProgress.Pending ;;
  t ← gets (now env);
  modify (withStartTime t) ;;
  emit (TelemetryEmit "codeTransform_jobStartedCompleteFromPopupDialog") ;;
  executeCommand "workbench.view.extension.aws-codewhisperer-transformation-hub" [] ;;
  executeCommand "aws.amazonq.showPlanProgressInHub" [] ;;
  executeCommand "aws.amazonq.refresh" [].

(** The four guarded assignments that open [postTransformationJob]
    (lines 327-338): [if (p[step] !== Succeeded) p[step] = Failed]. *)
Definition failUnlessSucceeded (step : string) (p : gmap string StepProgress.t)
    : gmap string StepProgress.t :=
  if decide (p !! step = Some StepProgress.Succeeded) then p
  else <[step := StepProgress.Failed]> p.

(** [postTransformationJob] (lines 326-386).  The event of the chat is
    fired only if the job state has chat controllers (line 340).  The
    archive is removed with [fs.rmSync] and [force: true] (line 384): the
    removal is an effect, and a failure of it is not modelled. *)
Definition postTransformationJob : M unit :=
  modify (withPlanProgress (failUnlessSucceeded "startJob")) ;;
  modify (withPlanProgress (failUnlessSucceeded "buildCode")) ;;
  modify (withPlanProgress (failUnlessSucceeded "generatePlan")) ;;
  modify (withPlanProgress (failUnlessSucceeded "transformCode")) ;;
  chat ← gets (chatControllers env);
  (if (chat : bool) then emit TransformationFinishedFire else mret tt) ;;
  start ← gets startTime;
  durationInMs ← gets (calculateTotalLatency env start);
  resultStatusMessage ← gets resultStatus;
  versionInfo ← await GetVersionData (fun w => Ok (getVersionData env w));
  emit (TelemetryEmit "codeTransform_totalRunTime") ;;
  history ← gets sessionJobHistory;
  start ← gets startTime;
  module ← gets (fun w => projectName (state w));
  status ← gets getStatus;
  id ← gets (fun w => jobId (state w));
  modify (withHistory
    (processHistory history (convertDateToTimestamp env start) module status
                    (convertToTimeString env durationInMs) id)) ;;
  succeeded ← gets isSucceeded;
  partiallySucceeded ← gets isPartiallySucceeded;
  (if (succeeded : bool) then
     emit (ShowInformationMessage (transformByQCompletedMessage K) [])
   else if (partiallySucceeded : bool) then
     emit (ShowInformationMessage (transformByQPartiallyCompletedMessage K)
                                  [amazonQFeedbackText K])
   else mret tt) ;;
  payload ← gets (fun w => payloadFilePath (state w));
  if decide (payload = "") then mret tt else emit (RmSync payload).

(** [transformationJobErrorHandler] (lines 388-406) *)
Definition transformationJobErrorHandler (error : Error) : M unit :=
  cancelled ← gets isCancelled;
  (if negb cancelled then
     setToFailed ;;
     setResultStatus "JobFailed" ;;
     message ← gets (fun w => jobFailureErrorMessage (state w));
     metadata ← gets (fun w => jobFailureMetadata (state w));
     let displayedErrorMessage :=
       if decide (metadata = "") then message else message +:+ " " +:+ metadata in
     emit (ShowErrorMessage displayedErrorMessage [amazonQFeedbackText K])
   else mret tt) ;;
  emit (LoggerError "CodeTransformation: " (Some error)).

(** [cleanupTransformationJob] (lines 408-417) *)
Definition cleanupTransformationJob : M unit :=
  emit ClearInterval ;;
  setJobDefaults ;;
  executeCommand "setContext" ["gumby.isStopButtonAvailable"; "false"] ;;
  executeCommand "aws.amazonq.refresh" [] ;;
  executeCommand "aws.amazonq.showPlanProgressInHub" [].

(** The [try] block of [startTransformByQ] (lines 146-168): the four
    steps and the finalization. *)
Definition startTransformByQ_steps : M unit :=
  emit (SetInterval "aws.amazonq.showPlanProgressInHub"
                    (transformationJobPollingIntervalSeconds K)) ;;
  uploadId ← preTransformationUploadCode;
  jobId ← startTransformationJob uploadId;
  pollTransformationStatusUntilPlanReady jobId ;;
  status ← pollTransformationStatusUntilComplete jobId;
  finalizeTransformationJob status.

(** [startTransformByQ] (lines 140-175) *)
Definition startTransformByQ : M unit :=
  setTransformationToRunningState ;;
  try_catch_finally
    startTransformByQ_steps
    transformationJobErrorHandler
    (postTransformationJob ;; cleanupTransformationJob).

End Orchestrator.

(** ** Validation before the run *)

(** What the validation functions read from their surroundings.  The enum
    [JDKVersion] and the error class [JavaHomeNotSetError] are not among
    the sources: the two enum strings compared here and the error value
    are parameters.  The project path and the source JDK version are set
    by the form that starts a transformation and are only read here. *)
Record Local := mkLocal {
  platform : string;                           (* os.platform() *)
  existsSync : string -> bool;                 (* fs.existsSync *)
  join : string -> string -> string;           (* path.join *)
  projectPath : string;                        (* transformByQState.getProjectPath() *)
  sourceJDKVersion : option string;            (* transformByQState.getSourceJDKVersion() *)
  mavenJavaVersion : World -> option string;   (* (await getVersionData())[1] *)
  JDK8 : string;                               (* JDKVersion.JDK8 *)
  JDK11 : string;                              (* JDKVersion.JDK11 *)
  javaHomeNotSetError : Error                  (* new JavaHomeNotSetError() *)
}.

Definition setMavenName (n : string) : M unit :=
  modify (withState (fun st =>
    mkState (status st) (jobId st) (projectName st) (payloadFilePath st) (planFilePath st)
            (jobFailureErrorMessage st) (jobFailureMetadata st) n)).

Section Validation.

Context (K : Constants) (env : Env) (V : Local).

(** [setMaven] (lines 76-90) *)
Definition setMaven : M unit :=
  let mavenWrapperExecutableName :=
    if decide (platform V = "win32") then "mvnw.cmd" else "mvnw" in
  let mavenWrapperExecutablePath := join V (projectPath V) mavenWrapperExecutableName in
  (if existsSync V mavenWrapperExecutablePath then
     let mavenWrapperExecutableName :=
       if decide (mavenWrapperExecutableName = "mvnw") then "./mvnw"
       else if decide (mavenWrapperExecutableName = "mvnw.cmd") then ".\mvnw.cmd"
       else mavenWrapperExecutableName in
     setMavenName mavenWrapperExecutableName
   else setMavenName "mvn") ;;
  name ← gets (fun w => mavenName (state w));
  emit (LoggerInfo ("CodeTransformation: using Maven " +:+ name)).

(** The Java version used by Maven, as [validateJavaHome] compares it
    (lines 94-102): the first three characters, with ['1.8'] and ['11.']
    replaced by the enum strings. *)
Definition javaVersionUsedByMaven (versionData1 : option string) : option string :=
  match versionData1 with
  | Some v =>
      let v := String.substring 0 3 v in
      Some (if decide (v = "1.8") then JDK8 V
            else if decide (v = "11.") then JDK11 V
            else v)
  | None => None
  end.

(** [validateJavaHome] (lines 92-116) *)
Definition validateJavaHome : M bool :=
  versionData1 ← await K env GetVersionData (fun w => Ok (mavenJavaVersion V w));
  if decide (javaVersionUsedByMaven versionData1 <> sourceJDKVersion V) then
    emit (TelemetryEmit "codeTransform_isDoubleClickedToTriggerInvalidProject") ;;
    mret false
  else mret true.

(** [validateCanCompileProject] (lines 118-124) *)
Definition validateCanCompileProject : M unit :=
  setMaven ;;
  javaHomeFound ← validateJavaHome;
  if negb javaHomeFound then throw (javaHomeNotSetError V) else mret tt.

End Validation.

(** ** Observations on the log *)

(** The remote work of a step of the run begins with one of these calls:
    building the archive, starting the job, polling the job. *)
Definition isStepStart (e : Event) : bool :=
  match e with
  | ZipCode | StartJob _ | PollTransformationJob _ _ => true
  | _ => false
  end.

Definition isCheck (e : Event) : bool :=
  match e with ThrowIfCancelled => true | _ => false end.

(** The calls of the run to the transformation service and the archive
    builder. *)
Definition isRemoteCall (e : Event) : bool :=
  match e with
  | ZipCode | UploadPayload _ | StartJob _ | PollTransformationJob _ _
  | GetTransformationPlan _ => true
  | _ => false
  end.

(** A monitor reading the log of a run, entry by entry.  [Checked]: the
    last entry is a cancellation check that passed.  [Aborted]: the last
    entry is a cancellation check that found the job cancelled.  [Bad]: a
    step began its remote work without a passed check right before it, or
    while the status was [Cancelled], or something was logged after a check
    that found the job cancelled. *)
Inductive Monitor := Idle | Checked | Aborted | Bad.

#[global] Instance Monitor_eq_dec : EqDecision Monitor.
Proof. solve_decision. Defined.

Definition monitorStep (m : Monitor) (en : Entry) : Monitor :=
  match m with
  | Bad | Aborted => Bad
  | Idle | Checked =>
      if isCheck en.2 then
        if decide (en.1 = TransformByQStatus.Cancelled) then Aborted else Checked
      else if isStepStart en.2 then
        match m with
        | Checked => if decide (en.1 = TransformByQStatus.Cancelled) then Bad else Idle
        | _ => Bad
        end
      else Idle
  end.

Definition monitor (m : Monitor) (l : list Entry) : Monitor := fold_left monitorStep l m.

Definition live (m : Monitor) : Prop := m = Idle \/ m = Checked.

(** [triple P c Q]: started with the monitor in a state of [P] (and, if the
    monitor is [Checked], with a job that is not cancelled), the computation
    [c] only appends to the log, and its result and the state of the
    monitor after the new entries satisfy [Q]. *)
Definition triple {A} (P : Monitor -> Prop) (c : M A) (Q : Result A -> Monitor -> Prop) : Prop :=
  forall (m : Monitor) (w : World),
    P m ->
    (m = Checked -> status (state w) <> TransformByQStatus.Cancelled) ->
    exists new,
      log (c w).2 = log w ++ new
      /\ Q (c w).1 (monitor m new)
      /\ (monitor m new = Checked ->
          status (state (c w).2) <> TransformByQStatus.Cancelled).

(** The outcome of a step: on a normal return the monitor is in a state of
    [ok]; on an exception either nothing is wrong with the log, or its last
    entry is a check that found the job cancelled and the exception is the
    cancellation error. *)
Definition outcome {A} (ok : Monitor -> Prop) (r : Result A) (m : Monitor) : Prop :=
  match r with
  | Ok _ => ok m
  | Throw e => m = Idle \/ (m = Aborted /\ e = TransformByQStoppedError)
  end.

(** Entries that are neither a cancellation check nor a call of the run to
    the service: what a stop request leaves in the log. *)
Definition quiet (en : Entry) : bool := negb (isCheck en.2) && negb (isRemoteCall en.2).

(** The four steps shown in the hub. *)
Definition stepNames : list string := ["startJob"; "buildCode"; "generatePlan"; "transformCode"].

(** ** Assertions on a run *)

(** An assertion speaks of the entries logged since some starting point
    and of the current world. *)
Definition Assertion : Type := list Entry -> World -> Prop.

(** [spec P c Q]: run in a world satisfying [P], the computation [c] only
    appends to the log, and its result, the entries logged since the
    starting point and the world it leaves satisfy [Q]. *)
Definition spec {A} (P : Assertion) (c : M A) (Q : Result A -> Assertion) : Prop :=
  forall l0 new w,
    log w = l0 ++ new -> P new w ->
    exists ext,
      log (c w).2 = l0 ++ new ++ ext /\ Q (c w).1 (new ++ ext) (c w).2.

(** [keeps I c]: [c] keeps the invariant [I], whatever its result. *)
Definition keeps {A} (I : Assertion) (c : M A) : Prop := spec I c (fun _ => I).

Definition isStopCall (en : Entry) : bool :=
  match en.2 with StopCodeTransformation _ => true | _ => false end.

(** [Suspended w e w1 tail]: [w1] is the world in which an [await] of the
    run, begun in [w] with the effect [e], resumes.  Either nothing
    happened, or the job was running and a stop request cancelled it,
    leaving [tail] in the log. *)
Definition Suspended (w : World) (e : Event) (w1 : World) (tail : list Entry) : Prop :=
  log w1 = log w ++ (status (state w), e) :: tail
  /\ forallb quiet tail = true
  /\ sessionPlanProgress w1 = sessionPlanProgress w
  /\ startTime w1 = startTime w
  /\ sessionJobHistory w1 = sessionJobHistory w
  /\ ((state w1 = state w /\ resultStatus w1 = resultStatus w /\ tail = [])
      \/ (status (state w) = TransformByQStatus.Running
          /\ state w1 = setStatus TransformByQStatus.Cancelled (state w)
          /\ resultStatus w1 = "JobCancelled"
          /\ (length (List.filter isStopCall tail) <= 1)%nat)).

(** [onOk I]: the assertion [I] on a normal return, nothing on an
    exception. *)
Definition onOk {A} (I : Assertion) : Result A -> Assertion :=
  fun r new w => match r with Ok _ => I new w | Throw _ => True end.

(** During the steps the job is running, or a stop request cancelled it
    and recorded the cancellation for the telemetry. *)
Definition runningOrCancelled : Assertion := fun _ w =>
  status (state w) = TransformByQStatus.Running
  \/ (status (state w) = TransformByQStatus.Cancelled /\ resultStatus w = "JobCancelled").


(** The job succeeded, wholly or partly, and the telemetry says so. *)
Definition succeeded : Assertion := fun _ w =>
  (status (state w) = TransformByQStatus.Succeeded
   /\ resultStatus w = "JobCompletedSuccessfully")
  \/ (status (state w) = TransformByQStatus.PartiallySucceeded
      /\ resultStatus w = "JobPartiallySucceeded").

(** The job reached one of its four final statuses, and the result kept
    for the telemetry is the one that goes with it. *)
Definition settled : Assertion := fun new w =>
  succeeded new w
  \/ (status (state w) = TransformByQStatus.Failed /\ resultStatus w = "JobFailed")
  \/ (status (state w) = TransformByQStatus.Cancelled /\ resultStatus w = "JobCancelled").

(** The number of remote stop calls in a log. *)
Definition stopCalls (l : list Entry) : nat := length (List.filter isStopCall l).

(** No archive was uploaded yet. *)
Definition noUpload : Assertion := fun new _ =>
  forall s p, (s, UploadPayload p) ∉ new.

(** The archive that was uploaded is the one whose path the job state
    holds. *)
Definition uploadRecorded : Assertion := fun new w =>
  forall s p, (s, UploadPayload p) ∈ new -> payloadFilePath (state w) = p.

(** The archive that was uploaded has been deleted afterwards. *)
Definition uploadRemoved : Assertion := fun new _ =>
  forall before s p after,
    new = before ++ (s, UploadPayload p) :: after -> p <> "" ->
    exists s', (s', RmSync p) ∈ after.

(** Before the run sets the job running: no stop call, no running job. *)
Definition notYetRunning : Assertion := fun new w =>
  stopCalls new = 0%nat /\ status (state w) <> TransformByQStatus.Running.

(** At most one stop call, and none as long as the job is running. *)
Definition stoppedOnce : Assertion := fun new w =>
  (stopCalls new <= 1)%nat
  /\ (status (state w) = TransformByQStatus.Running -> stopCalls new = 0%nat).

(** Nothing but quiet entries. *)
Definition quietLog : Assertion := fun new _ => forallb quiet new = true.

(** Nothing is asserted. *)
Definition anything : Assertion := fun _ _ => True.

(** The step [transformCode] is not marked as succeeded. *)
Definition codeNotDone : Assertion := fun _ w =>
  sessionPlanProgress w !! "transformCode" <> Some StepProgress.Succeeded.

(** The job failed or was cancelled, and the telemetry says so. *)
Definition unsuccessful : Assertion := fun _ w =>
  (status (state w) = TransformByQStatus.Failed /\ resultStatus w = "JobFailed")
  \/ (status (state w) = TransformByQStatus.Cancelled /\ resultStatus w = "JobCancelled").












(** ** A sample environment *)

Definition sampleConstants : Constants :=
  mkConstants "failed to start" "failed to complete" "completed" "partially completed"
              "cancelled" "error stopping" "Feedback" ["PLANNED"] ["COMPLETED"] 5.

(** A sample encoder: the characters [<] and [>] are written as numeric
    character references. *)
Fixpoint sampleEncodeHTML (s : string) : string :=
  match s with
  | EmptyString => EmptyString
  | String c rest =>
      if decide (c = "<"%char) then "&#60;" +:+ sampleEncodeHTML rest
      else if decide (c = ">"%char) then "&#62;" +:+ sampleEncodeHTML rest
      else String c (sampleEncodeHTML rest)
  end.

(** Every call succeeds; the stop call fails when [stopFails]; the user
    presses Stop during the suspension at which the log has [cancelAt]
    entries. *)
Definition sampleEnv (stopFails : bool) (cancelAt : nat) : Env :=
  mkEnv (fun _ => Ok "payload.zip") (fun _ _ => Ok "upload-1") (fun _ _ => Ok "job<1>")
        (fun _ _ _ => Ok "COMPLETED") (fun _ _ => Ok "plan")
        (fun _ _ => if stopFails then Throw (JsError "Stop job failed") else Ok tt)
        (fun _ => ("3.9.6", "17.0.1")) (fun _ => 1000) (fun t _ => 1000 - t) "/tmp"
        (fun dir name => dir +:+ "/" +:+ name) (fun _ _ _ => Ok tt) (fun _ => true)
        (fun w => bool_decide (length (log w) = cancelAt))
        sampleEncodeHTML (fun _ => "1 sec") (fun _ => "01/01/23, 12:00 AM").

Definition sampleProgress : gmap string StepProgress.t :=
  <["startJob" := StepProgress.Succeeded]>
    (<["buildCode" := StepProgress.Pending]>
      (<["generatePlan" := StepProgress.Failed]>
        (<["transformCode" := StepProgress.Pending]> ∅))).

Definition sampleWorld (s : TransformByQStatus.t) : World :=
  mkWorld (mkState s "abc-123" "my-module" "" "" "failed to complete" "" "mvn")
          sampleProgress "" 0 [] [].

(** A sample machine: Linux, a Maven wrapper in the project when
    [wrapper], Maven running on the Java version [java], a Java 8 project. *)
Definition sampleLocal (wrapper : bool) (java : option string) : Local :=
  mkLocal "linux" (fun path => wrapper && bool_decide (path = "/project/mvnw"))
          (fun dir name => dir +:+ "/" +:+ name) "/project" (Some "8")
          (fun _ => java) "8" "11" (JsError "JavaHomeNotSetError").

(** ** Basic facts *)

(** Unfolds the monadic plumbing, leaving the worlds and the answers. *)
Ltac run :=
  cbv [mbind M_bind mret M_ret throw try_catch try_catch_finally gets modify emit call
       done_ setToRunning setToSucceeded setToPartiallySucceeded setToFailed setToCancelled
       setJobId setPayloadFilePath setPlanFilePath setJobFailureErrorMessage setJobDefaults
       setResultStatus setStep].

(** Computes the fields of an updated world. *)
Ltac fields :=
  cbn [fst snd state sessionPlanProgress resultStatus startTime sessionJobHistory log
       logged withState withPlanProgress withResultStatus withStartTime withHistory
       setStatus status jobId projectName payloadFilePath planFilePath
       jobFailureErrorMessage jobFailureMetadata mavenName].

Lemma isRunning_true w : isRunning w = true <-> status (state w) = TransformByQStatus.Running.
Proof. unfold isRunning. apply bool_decide_eq_true. Qed.

Lemma isRunning_false w : isRunning w = false <-> status (state w) <> TransformByQStatus.Running.
Proof. unfold isRunning. apply bool_decide_eq_false. Qed.

Lemma isCancelled_true w :
  isCancelled w = true <-> status (state w) = TransformByQStatus.Cancelled.
Proof. unfold isCancelled. apply bool_decide_eq_true. Qed.

Lemma isCancelled_false w :
  isCancelled w = false <-> status (state w) <> TransformByQStatus.Cancelled.
Proof. unfold isCancelled. apply bool_decide_eq_false. Qed.

Section Facts.

Context (K : Constants) (env : Env).

Lemma stopTransformByQ_idle jobId w :
  status (state w) <> TransformByQStatus.Running ->
  stopTransformByQ K env jobId w = (Ok tt, w).
Proof.
  intros H. apply isRunning_false in H. unfold stopTransformByQ. run.
  rewrite H. reflexivity.
Qed.

(** The whole effect of a stop request on a running job. *)
Lemma stopTransformByQ_running jobId w :
  status (state w) = TransformByQStatus.Running ->
  let r := (stopTransformByQ K env jobId w).1 in
  let w' := (stopTransformByQ K env jobId w).2 in
  exists wc text,
    r = Ok tt
    /\ state w' = setStatus TransformByQStatus.Cancelled (state w)
    /\ sessionPlanProgress w' = sessionPlanProgress w
    /\ resultStatus w' = "JobCancelled"
    /\ startTime w' = startTime w
    /\ sessionJobHistory w' = sessionJobHistory w
    /\ log w' = log w ++
         [(TransformByQStatus.Running,
           LoggerInfo "CodeTransformation: User requested to stop transformation. Stopping transformation.");
          (TransformByQStatus.Cancelled, ExecuteCommand "aws.amazonq.refresh" []);
          (TransformByQStatus.Cancelled,
           ExecuteCommand "setContext" ["gumby.isStopButtonAvailable"; "false"])] ++
         (if decide (jobId = "") then []
          else [(TransformByQStatus.Cancelled, StopCodeTransformation jobId)]) ++
         [(TransformByQStatus.Cancelled, ShowErrorMessage text [amazonQFeedbackText K]);
          (TransformByQStatus.Cancelled, TelemetryEmit "codeTransform_jobIsCancelledByUser")]
    /\ status (state wc) = TransformByQStatus.Cancelled
    /\ (exists before,
          log wc = before ++ [(TransformByQStatus.Cancelled, StopCodeTransformation jobId)])
    /\ text = (if decide (jobId = "") then transformByQCancelledMessage K
              else match codeModernizerStopCodeTransformation env jobId wc with
                   | Ok _ => transformByQCancelledMessage K
                   | Throw _ => errorStoppingJobMessage K
                   end).
Proof.
  intros H. cbv zeta. pose proof H as Hr. apply isRunning_true in Hr.
  unfold stopTransformByQ, stopJob. run. rewrite Hr.
  destruct (decide (jobId = "")) as [Hj|Hj].
  - exists (logged (StopCodeTransformation jobId)
              (withState (setStatus TransformByQStatus.Cancelled) w)).
    eexists. fields. rewrite H.
    repeat split; [rewrite <- !app_assoc; reflexivity | eexists; reflexivity].
  - match goal with
    | |- context [codeModernizerStopCodeTransformation env jobId ?x] =>
        exists x; destruct (codeModernizerStopCodeTransformation env jobId x) as [[]|err]
    end.
    all: eexists; fields; rewrite H.
    all: repeat split; [rewrite <- !app_assoc; reflexivity | eexists; reflexivity].
Qed.

(** *** Interruptions: what a stop request during a suspension changes *)

Lemma interrupt_idle w :
  status (state w) <> TransformByQStatus.Running -> interrupt K env w = w.
Proof.
  intros H. unfold interrupt. destruct (userCancels env w); [|reflexivity].
  rewrite stopTransformByQ_idle by assumption. reflexivity.
Qed.

Lemma interrupt_cases w :
  interrupt K env w = w \/
  (status (state w) = TransformByQStatus.Running
   /\ state (interrupt K env w) = setStatus TransformByQStatus.Cancelled (state w)
   /\ sessionPlanProgress (interrupt K env w) = sessionPlanProgress w
   /\ startTime (interrupt K env w) = startTime w
   /\ sessionJobHistory (interrupt K env w) = sessionJobHistory w
   /\ exists tail, log (interrupt K env w) = log w ++ tail /\ forallb quiet tail = true).
Proof.
  unfold interrupt. destruct (userCancels env w); [|left; reflexivity].
  destruct (decide (status (state w) = TransformByQStatus.Running)) as [Hr|Hr].
  - right. split; [assumption|].
    destruct (stopTransformByQ_running (jobId (state w)) w Hr)
      as (wc & text & _ & Hst & Hp & _ & Ht & Hh & Hl & _).
    repeat split; try assumption.
    eexists. split; [exact Hl|].
    destruct (decide (jobId (state w) = "")); reflexivity.
  - left. rewrite stopTransformByQ_idle by assumption. reflexivity.
Qed.

Lemma interrupt_state w :
  state (interrupt K env w) = setStatus (status (state (interrupt K env w))) (state w).
Proof.
  destruct (interrupt_cases w) as [->|(_ & -> & _)]; [|reflexivity].
  destruct (state w); reflexivity.
Qed.

Lemma interrupt_status w :
  status (state (interrupt K env w)) = status (state w) \/
  status (state (interrupt K env w)) = TransformByQStatus.Cancelled.
Proof.
  destruct (interrupt_cases w) as [->|(_ & -> & _)]; [left|right]; reflexivity.
Qed.

Lemma interrupt_jobId w : jobId (state (interrupt K env w)) = jobId (state w).
Proof. rewrite interrupt_state. reflexivity. Qed.

Lemma interrupt_projectName w :
  projectName (state (interrupt K env w)) = projectName (state w).
Proof. rewrite interrupt_state. reflexivity. Qed.

Lemma interrupt_sessionJobHistory w :
  sessionJobHistory (interrupt K env w) = sessionJobHistory w.
Proof. destruct (interrupt_cases w) as [->|(_ & _ & _ & _ & -> & _)]; reflexivity. Qed.

Lemma interrupt_sessionPlanProgress w :
  sessionPlanProgress (interrupt K env w) = sessionPlanProgress w.
Proof. destruct (interrupt_cases w) as [->|(_ & _ & -> & _)]; reflexivity. Qed.

Lemma interrupt_startTime w : startTime (interrupt K env w) = startTime w.
Proof. destruct (interrupt_cases w) as [->|(_ & _ & _ & -> & _)]; reflexivity. Qed.

Lemma interrupt_log w :
  exists tail, log (interrupt K env w) = log w ++ tail /\ forallb quiet tail = true.
Proof.
  destruct (interrupt_cases w) as [->|(_ & _ & _ & _ & _ & tail & -> & H)].
  - exists []. rewrite app_nil_r. split; reflexivity.
  - exists tail. split; [reflexivity|assumption].
Qed.

End Facts.


(** Removes the interruptions of a job that is not running, innermost
    first. *)
Ltac uninterrupted K env :=
  repeat match goal with
         | |- context [interrupt K env ?x] =>
             lazymatch x with
             | context [interrupt] => fail
             | _ => rewrite (interrupt_idle K env x) by (fields; discriminate)
             end
         end.

(** ** Transfer client: upload headers and the stop request *)

(** C1. For every checksum and key ARN, the header map of [getHeadersObj]
    binds ['x-amz-checksum-sha256'] to the checksum and ['Content-Type'] to
    ['application/zip']; it holds the two encryption headers (with the
    values ['aws:kms'] and the ARN) exactly when the ARN is not empty, and
    with an empty ARN the two encryption keys are absent from the map.  The
    map has no other key. *)
Theorem getHeadersObj_encryption_iff (checksum kmsKeyArn : string) :
  let headers := getHeadersObj checksum kmsKeyArn in
  headers !! "x-amz-checksum-sha256" = Some checksum
  /\ headers !! "Content-Type" = Some "application/zip"
  /\ (kmsKeyArn <> "" <->
      headers !! "x-amz-server-side-encryption" = Some "aws:kms"
      /\ headers !! "x-amz-server-side-encryption-aws-kms-key-id" = Some kmsKeyArn)
  /\ (kmsKeyArn = "" <->
      headers !! "x-amz-server-side-encryption" = None
      /\ headers !! "x-amz-server-side-encryption-aws-kms-key-id" = None)
  /\ dom headers =
       (if decide (kmsKeyArn = "") then {[ "x-amz-checksum-sha256"; "Content-Type" ]}
        else {[ "x-amz-checksum-sha256"; "Content-Type"; "x-amz-server-side-encryption";
                "x-amz-server-side-encryption-aws-kms-key-id" ]} : gset string).
Proof.
  unfold getHeadersObj. cbv zeta.
  destruct (decide (kmsKeyArn = "")) as [He|Hne].
  - split; [|split; [|split; [|split; [|]]]].
    + rewrite lookup_insert_ne by discriminate. apply lookup_insert_eq.
    + apply lookup_insert_eq.
    + split; [intros Hn; contradiction|].
      intros [H _]. rewrite !lookup_insert_ne in H by discriminate.
      rewrite lookup_empty in H. discriminate.
    + split; [|intros _; assumption].
      intros _. rewrite !lookup_insert_ne by discriminate.
      rewrite lookup_empty. split; reflexivity.
    + rewrite !dom_insert_L, dom_empty_L. set_solver.
  - split; [|split; [|split; [|split; [|]]]].
    + rewrite !lookup_insert_ne by discriminate. apply lookup_insert_eq.
    + rewrite !lookup_insert_ne by discriminate. apply lookup_insert_eq.
    + split; [intros _|intros _; assumption]. split.
      * rewrite lookup_insert_ne by discriminate. apply lookup_insert_eq.
      * apply lookup_insert_eq.
    + split; [intros He; contradiction|].
      intros [_ H]. rewrite lookup_insert_eq in H. discriminate.
    + rewrite !dom_insert_L, dom_empty_L. set_solver.
Qed.

(** C2. [stopJob] with an empty job id is a no-op: it returns normally and
    leaves the world, hence the log, as it was, so no remote stop call is
    issued.  With a non-empty job id it issues exactly one effect, the
    remote stop call with that job id, changes nothing else, and hands the
    answer of the call to its caller. *)
Theorem stopJob_contract (env : Env) (w : World) :
  stopJob env "" w = (Ok tt, w)
  /\ forall jobId, jobId <> "" ->
       let w' := (stopJob env jobId w).2 in
       log w' = log w ++ [(status (state w), StopCodeTransformation jobId)]
       /\ state w' = state w
       /\ (stopJob env jobId w).1 = codeModernizerStopCodeTransformation env jobId w'.
Proof.
  split; [reflexivity|].
  intros jobId Hne. unfold stopJob.
  destruct (decide (jobId = "")); [contradiction|].
  unfold call. fields. repeat split.
Qed.

Lemma stopJob_contract_witness :
  stopJob (sampleEnv false 0) "" (sampleWorld TransformByQStatus.Running)
    = (Ok tt, sampleWorld TransformByQStatus.Running)
  /\ log (stopJob (sampleEnv false 0) "dummyId" (sampleWorld TransformByQStatus.Running)).2
     = [(TransformByQStatus.Running, StopCodeTransformation "dummyId")].
Proof.
  destruct (stopJob_contract (sampleEnv false 0) (sampleWorld TransformByQStatus.Running))
    as [H0 H1].
  split; [exact H0|].
  destruct (H1 "dummyId") as [H _]; [discriminate|exact H].
Defined.

(** ** Run history and step progress *)

Lemma setTransformationToRunningState_returns (K : Constants) (env : Env) (w : World) :
  (setTransformationToRunningState K env w).1 = Ok tt.
Proof.
  unfold setTransformationToRunningState, setContextVariables, executeCommand, await. run.
  reflexivity.
Qed.

(** The history left by [postTransformationJob]: one entry, with the job
    id of the job state. *)
Lemma processHistory_single (K : Constants) (env : Env) (w : World) :
  exists entry,
    sessionJobHistory (postTransformationJob K env w).2 = [entry]
    /\ h_id entry = jobId (state w).
Proof.
  unfold postTransformationJob, await. run.
  repeat match goal with
         | |- context [if ?b then _ else _] => destruct b
         end.
  all: fields; unfold processHistory; fields.
  all: rewrite ?interrupt_jobId; fields.
  all: eexists; split; reflexivity.
Qed.

Lemma postTransformationJob_returns (K : Constants) (env : Env) (w : World) :
  (postTransformationJob K env w).1 = Ok tt.
Proof.
  unfold postTransformationJob, await. run.
  repeat match goal with
         | |- context [if ?b then _ else _] => destruct b
         end.
  all: reflexivity.
Qed.

Lemma cleanupTransformationJob_history (K : Constants) (env : Env) (w : World) :
  sessionJobHistory (cleanupTransformationJob K env w).2 = sessionJobHistory w.
Proof.
  unfold cleanupTransformationJob, executeCommand, await. run. fields.
  repeat (rewrite interrupt_sessionJobHistory; fields). reflexivity.
Qed.

(** The [finally] block of [startTransformByQ] leaves a one-entry history. *)
Lemma finally_history (K : Constants) (env : Env) (w : World) :
  exists entry,
    sessionJobHistory
      ((postTransformationJob K env ;; cleanupTransformationJob K env) w).2 = [entry].
Proof.
  destruct (processHistory_single K env w) as (entry & He & _).
  exists entry. unfold mbind, M_bind.
  pose proof (postTransformationJob_returns K env w) as Hr.
  destruct (postTransformationJob K env w) as [r w1]. cbn [fst snd] in *. subst r.
  rewrite cleanupTransformationJob_history. exact He.
Qed.

(** C3. Whatever the prior history, [processHistory] returns the one-entry
    list holding the record of the current run; [postTransformationJob]
    completes and leaves exactly one entry in [sessionJobHistory], built
    from the start time, the project name, the status and the job id of the
    job state, however many entries the history held before; and so the
    history holds exactly one entry after any run of [startTransformByQ]. *)
Theorem processHistory_replaces (K : Constants) (env : Env)
    (prior : list HistoryEntry) (startTime' module status duration id : string) (w : World) :
  processHistory prior startTime' module status duration id
    = [mkHistory startTime' module status duration id]
  /\ length (processHistory prior startTime' module status duration id) = 1%nat
  /\ (let w' := (postTransformationJob K env w).2 in
      (postTransformationJob K env w).1 = Ok tt
      /\ length (sessionJobHistory w') = 1%nat
      /\ exists duration',
           sessionJobHistory w' =
             [mkHistory (convertDateToTimestamp env (startTime w)) (projectName (state w))
                        (getStatus w') duration' (jobId (state w))])
  /\ length (sessionJobHistory (startTransformByQ K env w).2) = 1%nat.
Proof.
  split; [reflexivity|]. split; [reflexivity|]. split.
  - unfold postTransformationJob, await. run.
    repeat match goal with
           | |- context [if ?b then _ else _] => destruct b
           end.
    all: fields; unfold processHistory, getStatus; fields.
    all: rewrite ?interrupt_startTime, ?interrupt_projectName, ?interrupt_jobId; fields.
    all: split; [reflexivity|]; split; [reflexivity|]; eexists; reflexivity.
  - unfold startTransformByQ.
    change (setTransformationToRunningState K env ;;
            try_catch_finally (startTransformByQ_steps K env)
              (transformationJobErrorHandler K)
              (postTransformationJob K env ;; cleanupTransformationJob K env))
      with (M_bind _ _
              (fun _ : unit =>
                 try_catch_finally (startTransformByQ_steps K env)
                   (transformationJobErrorHandler K)
                   (postTransformationJob K env ;; cleanupTransformationJob K env))
              (setTransformationToRunningState K env)).
    unfold M_bind.
    pose proof (setTransformationToRunningState_returns K env w) as Hr.
    destruct (setTransformationToRunningState K env w) as [r w1].
    cbn [fst] in Hr. subst r.
    unfold try_catch_finally.
    destruct (try_catch (startTransformByQ_steps K env) (transformationJobErrorHandler K) w1)
      as [r2 w2].
    destruct (finally_history K env w2) as (entry & He).
    destruct ((postTransformationJob K env ;; cleanupTransformationJob K env) w2)
      as [[[]|err] w3]; cbn [snd] in *; rewrite He; reflexivity.
Qed.

Lemma failUnlessSucceeded_lookup (step : string) (p : gmap string StepProgress.t) :
  failUnlessSucceeded step p !! step =
    Some (if decide (p !! step = Some StepProgress.Succeeded)
          then StepProgress.Succeeded else StepProgress.Failed).
Proof.
  unfold failUnlessSucceeded.
  destruct (decide (p !! step = Some StepProgress.Succeeded)); [assumption|].
  apply lookup_insert_eq.
Qed.

Lemma failUnlessSucceeded_lookup_ne (step other : string) (p : gmap string StepProgress.t) :
  step <> other -> failUnlessSucceeded step p !! other = p !! other.
Proof.
  intros Hne. unfold failUnlessSucceeded.
  destruct (decide (p !! step = Some StepProgress.Succeeded)); [reflexivity|].
  apply lookup_insert_ne. assumption.
Qed.

Lemma postTransformationJob_progress (K : Constants) (env : Env) (w : World) :
  sessionPlanProgress (postTransformationJob K env w).2 =
    failUnlessSucceeded "transformCode"
      (failUnlessSucceeded "generatePlan"
        (failUnlessSucceeded "buildCode"
          (failUnlessSucceeded "startJob" (sessionPlanProgress w)))).
Proof.
  unfold postTransformationJob, await. run.
  repeat match goal with
         | |- context [if ?b then _ else _] => destruct b
         end.
  all: fields; rewrite interrupt_sessionPlanProgress; fields; reflexivity.
Qed.

(** C4. After [postTransformationJob], each of the four steps is
    [Succeeded] or [Failed], never [Pending]: a step that was [Succeeded]
    is still [Succeeded], and a step that held anything else is [Failed]. *)
Theorem postTransformationJob_no_pending (K : Constants) (env : Env) (w : World)
    (step : string) :
  step ∈ stepNames ->
  let before := sessionPlanProgress w !! step in
  let after := sessionPlanProgress (postTransformationJob K env w).2 !! step in
  after <> Some StepProgress.Pending
  /\ (after = Some StepProgress.Succeeded \/ after = Some StepProgress.Failed)
  /\ (before = Some StepProgress.Succeeded <-> after = Some StepProgress.Succeeded)
  /\ (before <> Some StepProgress.Succeeded <-> after = Some StepProgress.Failed).
Proof.
  intros Hin. cbv zeta. rewrite postTransformationJob_progress.
  assert (Hl : failUnlessSucceeded "transformCode"
      (failUnlessSucceeded "generatePlan"
        (failUnlessSucceeded "buildCode"
          (failUnlessSucceeded "startJob" (sessionPlanProgress w)))) !! step
    = Some (if decide (sessionPlanProgress w !! step = Some StepProgress.Succeeded)
            then StepProgress.Succeeded else StepProgress.Failed)).
  { unfold stepNames in Hin. rewrite !elem_of_cons, elem_of_nil in Hin.
    destruct Hin as [->|[->|[->|[->|[]]]]].
    - rewrite !failUnlessSucceeded_lookup_ne by discriminate.
      apply failUnlessSucceeded_lookup.
    - rewrite !failUnlessSucceeded_lookup_ne by discriminate.
      rewrite failUnlessSucceeded_lookup.
      rewrite failUnlessSucceeded_lookup_ne by discriminate. reflexivity.
    - rewrite !failUnlessSucceeded_lookup_ne by discriminate.
      rewrite failUnlessSucceeded_lookup.
      rewrite !failUnlessSucceeded_lookup_ne by discriminate. reflexivity.
    - rewrite failUnlessSucceeded_lookup.
      rewrite !failUnlessSucceeded_lookup_ne by discriminate. reflexivity. }
  rewrite Hl.
  destruct (decide (sessionPlanProgress w !! step = Some StepProgress.Succeeded)) as [H|H].
  - split; [discriminate|]. split; [left; reflexivity|].
    split; [tauto|]. split; [intros Hc; contradiction|discriminate].
  - split; [discriminate|]. split; [right; reflexivity|].
    split; [|tauto]. split; [intros Hc; contradiction|discriminate].
Qed.

Lemma postTransformationJob_no_pending_witness :
  sessionPlanProgress
    (postTransformationJob sampleConstants (sampleEnv false 0)
       (sampleWorld TransformByQStatus.Running)).2 !! "buildCode"
  = Some StepProgress.Failed.
Proof.
  destruct (postTransformationJob_no_pending sampleConstants (sampleEnv false 0)
              (sampleWorld TransformByQStatus.Running) "buildCode") as (_ & _ & _ & H).
  - unfold stepNames. apply list_elem_of_further, list_elem_of_here.
  - apply H. vm_compute. discriminate.
Defined.

(** ** Finalization and the error handler *)

(** C5. [finalizeTransformationJob] on any final status.  If the status is
    neither ['COMPLETED'] nor ['PARTIALLY_COMPLETED']: the step
    [transformCode] becomes [Failed], the failure message is recorded, the
    completion error is raised and the job status is left as it was.
    Otherwise no error is raised, the job status becomes [Succeeded] for
    ['COMPLETED'] and [PartiallySucceeded] for ['PARTIALLY_COMPLETED'], and
    the step [transformCode] becomes [Succeeded]. *)
Theorem finalizeTransformationJob_outcome (K : Constants) (env : Env)
    (finalStatus : string) (w : World) :
  let r := (finalizeTransformationJob K env finalStatus w).1 in
  let w' := (finalizeTransformationJob K env finalStatus w).2 in
  if decide (finalStatus = "COMPLETED" \/ finalStatus = "PARTIALLY_COMPLETED") then
    r = Ok tt
    /\ status (state w') =
         (if decide (finalStatus = "COMPLETED") then TransformByQStatus.Succeeded
          else TransformByQStatus.PartiallySucceeded)
    /\ sessionPlanProgress w' !! "transformCode" = Some StepProgress.Succeeded
  else
    r = Throw (JsError "Job was not successful nor partially successful")
    /\ sessionPlanProgress w' !! "transformCode" = Some StepProgress.Failed
    /\ jobFailureErrorMessage (state w') = failedToCompleteJobMessage K
    /\ status (state w') = status (state w).
Proof.
  cbv zeta. unfold finalizeTransformationJob.
  destruct (decide (finalStatus = "COMPLETED" \/ finalStatus = "PARTIALLY_COMPLETED"))
    as [[->| ->]|Hn].
  - rewrite (bool_decide_eq_true_2 ("COMPLETED" = "COMPLETED")) by reflexivity.
    rewrite (bool_decide_eq_false_2 ("COMPLETED" = "PARTIALLY_COMPLETED")) by discriminate.
    rewrite decide_True by reflexivity.
    cbn [orb negb]. unfold executeCommand, await. run.
    uninterrupted K env. fields.
    rewrite lookup_insert_eq. repeat split.
  - rewrite (bool_decide_eq_false_2 ("PARTIALLY_COMPLETED" = "COMPLETED")) by discriminate.
    rewrite (bool_decide_eq_true_2 ("PARTIALLY_COMPLETED" = "PARTIALLY_COMPLETED"))
      by reflexivity.
    rewrite decide_False by discriminate.
    cbn [orb negb]. unfold executeCommand, await. run.
    uninterrupted K env. fields.
    rewrite lookup_insert_eq. repeat split.
  - rewrite !bool_decide_eq_false_2 by tauto. cbn [orb negb]. run. fields.
    rewrite lookup_insert_eq. repeat split.
Qed.

(** C6. [transformationJobErrorHandler] on any error.  If the job state
    shows [Cancelled], the handler leaves the state as it is and shows
    nothing to the user: its only effect is the log line.  Otherwise the
    status becomes [Failed] and one error notification is shown, whose text
    is the recorded failure message, followed by a space and the failure
    metadata exactly when the metadata is not empty. *)
Theorem transformationJobErrorHandler_outcome (K : Constants) (error : Error) (w : World) :
  let r := (transformationJobErrorHandler K error w).1 in
  let w' := (transformationJobErrorHandler K error w).2 in
  r = Ok tt /\
  if decide (status (state w) = TransformByQStatus.Cancelled) then
    state w' = state w
    /\ log w' = log w ++ [(TransformByQStatus.Cancelled,
                           LoggerError "CodeTransformation: " (Some error))]
  else
    status (state w') = TransformByQStatus.Failed
    /\ log w' = log w ++
         [(TransformByQStatus.Failed,
           ShowErrorMessage
             (if decide (jobFailureMetadata (state w) = "")
              then jobFailureErrorMessage (state w)
              else jobFailureErrorMessage (state w) +:+ " " +:+ jobFailureMetadata (state w))
             [amazonQFeedbackText K]);
          (TransformByQStatus.Failed, LoggerError "CodeTransformation: " (Some error))].
Proof.
  cbv zeta. unfold transformationJobErrorHandler. run.
  destruct (decide (status (state w) = TransformByQStatus.Cancelled)) as [Hc|Hc].
  - assert (H : isCancelled w = true) by (apply isCancelled_true; assumption).
    rewrite H. cbn [negb]. fields. rewrite Hc. repeat split.
  - assert (H : isCancelled w = false) by (apply isCancelled_false; assumption).
    rewrite H. cbn [negb]. fields. rewrite <- app_assoc. repeat split.
Qed.

(** ** Cancellation *)

(** C7. A stop request on a running job: [stopTransformByQ] returns
    normally whatever the remote stop call does, and the status is
    [Cancelled] afterwards.  The remote stop call, issued when the job id
    is not empty, is logged with the status [Cancelled], so the status was
    set before the call.  One notification is shown: the cancellation
    message when the stop call succeeded or was not needed, the
    stop-failure message when it threw. *)
Theorem stopTransformByQ_running_cancels (K : Constants) (env : Env)
    (jobId : string) (w : World) :
  status (state w) = TransformByQStatus.Running ->
  let r := (stopTransformByQ K env jobId w).1 in
  let w' := (stopTransformByQ K env jobId w).2 in
  r = Ok tt
  /\ status (state w') = TransformByQStatus.Cancelled
  /\ exists wc text,
       log w' = log w ++
         [(TransformByQStatus.Running,
           LoggerInfo "CodeTransformation: User requested to stop transformation. Stopping transformation.");
          (TransformByQStatus.Cancelled, ExecuteCommand "aws.amazonq.refresh" []);
          (TransformByQStatus.Cancelled,
           ExecuteCommand "setContext" ["gumby.isStopButtonAvailable"; "false"])] ++
         (if decide (jobId = "") then []
          else [(TransformByQStatus.Cancelled, StopCodeTransformation jobId)]) ++
         [(TransformByQStatus.Cancelled, ShowErrorMessage text [amazonQFeedbackText K]);
          (TransformByQStatus.Cancelled, TelemetryEmit "codeTransform_jobIsCancelledByUser")]
       /\ status (state wc) = TransformByQStatus.Cancelled
       /\ (exists before,
             log wc = before ++ [(TransformByQStatus.Cancelled, StopCodeTransformation jobId)])
       /\ text = (if decide (jobId = "") then transformByQCancelledMessage K
                 else match codeModernizerStopCodeTransformation env jobId wc with
                      | Ok _ => transformByQCancelledMessage K
                      | Throw _ => errorStoppingJobMessage K
                      end).
Proof.
  intros Hr. cbv zeta.
  destruct (stopTransformByQ_running K env jobId w Hr)
    as (wc & text & Hres & Hst & _ & _ & _ & _ & Hl & Hs & Hb & Ht).
  split; [exact Hres|]. split; [rewrite Hst; reflexivity|].
  exists wc, text. repeat split; assumption.
Qed.

Lemma stopTransformByQ_running_cancels_witness :
  (stopTransformByQ sampleConstants (sampleEnv true 0) "abc-123"
     (sampleWorld TransformByQStatus.Running)).1 = Ok tt
  /\ status (state (stopTransformByQ sampleConstants (sampleEnv true 0) "abc-123"
                      (sampleWorld TransformByQStatus.Running)).2)
     = TransformByQStatus.Cancelled.
Proof.
  destruct (stopTransformByQ_running_cancels sampleConstants (sampleEnv true 0) "abc-123"
              (sampleWorld TransformByQStatus.Running)) as (H1 & H2 & _).
  - reflexivity.
  - split; [exact H1|exact H2].
Defined.

(** C9. A stop request on a job that is not running changes nothing: the
    call returns normally and the world (job state, step progress, history
    and log, hence no remote call and no notification) is the one it was
    given. *)
Theorem stopTransformByQ_not_running_noop (K : Constants) (env : Env)
    (jobId : string) (w : World) :
  status (state w) <> TransformByQStatus.Running ->
  stopTransformByQ K env jobId w = (Ok tt, w).
Proof.
  intros H. apply isRunning_false in H. unfold stopTransformByQ. run.
  rewrite H. reflexivity.
Qed.

Lemma stopTransformByQ_not_running_noop_witness :
  stopTransformByQ sampleConstants (sampleEnv false 0) "abc-123"
    (sampleWorld TransformByQStatus.NotStarted)
  = (Ok tt, sampleWorld TransformByQStatus.NotStarted).
Proof.
  apply (stopTransformByQ_not_running_noop sampleConstants (sampleEnv false 0) "abc-123"
           (sampleWorld TransformByQStatus.NotStarted)).
  discriminate.
Defined.

(** ** The monitor *)

Lemma monitor_app m l1 l2 : monitor m (l1 ++ l2) = monitor (monitor m l1) l2.
Proof. unfold monitor. apply fold_left_app. Qed.

Lemma monitor_Bad l : monitor Bad l = Bad.
Proof. induction l as [|en l IH]; [reflexivity|exact IH]. Qed.

Lemma monitor_Aborted l : monitor Aborted l <> Bad -> l = [].
Proof.
  destruct l as [|en l]; [reflexivity|].
  intros H. exfalso. apply H. cbn. apply monitor_Bad.
Qed.

Lemma monitorStep_quiet m en :
  live m -> isCheck en.2 = false -> isStepStart en.2 = false -> monitorStep m en = Idle.
Proof.
  intros [-> | ->] Hc Hs; unfold monitorStep; rewrite Hc, Hs; reflexivity.
Qed.

Lemma isStepStart_isRemoteCall e : isRemoteCall e = false -> isStepStart e = false.
Proof. destruct e; cbn; congruence. Qed.

Lemma monitor_quiet l : forallb quiet l = true -> monitor Idle l = Idle.
Proof.
  induction l as [|en l IH]; [reflexivity|].
  cbn [forallb]. intros [Hq Hl]%andb_true_iff.
  unfold quiet in Hq. apply andb_true_iff in Hq as [Hc Hs].
  apply negb_true_iff in Hc, Hs. apply isStepStart_isRemoteCall in Hs.
  change (monitor Idle (en :: l)) with (monitor (monitorStep Idle en) l).
  rewrite monitorStep_quiet by (try left; auto). apply IH, Hl.
Qed.



(** In a log accepted by the monitor, a check that found the job cancelled
    is the last entry. *)
Lemma monitor_cancelled_check l before after :
  monitor Idle l <> Bad ->
  l = before ++ (TransformByQStatus.Cancelled, ThrowIfCancelled) :: after ->
  after = [] /\ monitor Idle l = Aborted.
Proof.
  intros Hm ->. rewrite monitor_app in Hm |- *.
  change (monitor (monitor Idle before) ((TransformByQStatus.Cancelled, ThrowIfCancelled) :: after))
    with (monitor (monitorStep (monitor Idle before)
                     (TransformByQStatus.Cancelled, ThrowIfCancelled)) after) in Hm |- *.
  destruct (monitor Idle before); cbn in Hm |- *.
  3,4: rewrite monitor_Bad in Hm; contradiction.
  all: apply monitor_Aborted in Hm; subst after; split; reflexivity.
Qed.

(** ** Rules for [triple] *)

Section Rules.

Context (K : Constants) (env : Env).

Lemma triple_ret {A} (P : Monitor -> Prop) (a : A) :
  triple P (mret a) (fun r m => r = Ok a /\ P m).
Proof.
  intros m w HP Hinv. exists []. cbn. rewrite app_nil_r. auto.
Qed.

Lemma triple_throw {A} (P : Monitor -> Prop) (e : Error) :
  triple P (throw e : M A) (fun r m => r = Throw e /\ P m).
Proof.
  intros m w HP Hinv. exists []. cbn. rewrite app_nil_r. auto.
Qed.

Lemma triple_post {A} (P : Monitor -> Prop) (c : M A) (Q R : Result A -> Monitor -> Prop) :
  triple P c Q -> (forall r m, Q r m -> R r m) -> triple P c R.
Proof.
  intros Hc HQR m w HP Hinv.
  destruct (Hc m w HP Hinv) as (new & Hl & HQ & Hi).
  exists new. auto.
Qed.

Lemma triple_bind {A B} (P : Monitor -> Prop) (c : M A) (f : A -> M B)
    (Q : Result A -> Monitor -> Prop) (R : Result B -> Monitor -> Prop) :
  triple P c Q ->
  (forall a, triple (Q (Ok a)) (f a) R) ->
  (forall e m, Q (Throw e) m -> R (Throw e) m) ->
  triple P (c ≫= f) R.
Proof.
  intros Hc Hf Hthrow m w HP Hinv.
  destruct (Hc m w HP Hinv) as (new1 & Hl1 & HQ & Hi1).
  unfold mbind, M_bind. destruct (c w) as [[a|e] w1]; cbn in *.
  - destruct (Hf a (monitor m new1) w1 HQ Hi1) as (new2 & Hl2 & HR & Hi2).
    exists (new1 ++ new2). rewrite monitor_app, Hl2, Hl1, app_assoc. auto.
  - exists new1. auto.
Qed.

Lemma triple_try_catch {A} (P : Monitor -> Prop) (c : M A) (h : Error -> M A)
    (Q R : Result A -> Monitor -> Prop) :
  triple P c Q ->
  (forall e, triple (Q (Throw e)) (h e) R) ->
  (forall a m, Q (Ok a) m -> R (Ok a) m) ->
  triple P (try_catch c h) R.
Proof.
  intros Hc Hh Hok m w HP Hinv.
  destruct (Hc m w HP Hinv) as (new1 & Hl1 & HQ & Hi1).
  unfold try_catch. destruct (c w) as [[a|e] w1]; cbn in *.
  - exists new1. auto.
  - destruct (Hh e (monitor m new1) w1 HQ Hi1) as (new2 & Hl2 & HR & Hi2).
    exists (new1 ++ new2). rewrite monitor_app, Hl2, Hl1, app_assoc. auto.
Qed.

(** A change of the world that leaves the log alone and does not cancel
    the job. *)
Lemma triple_modify (P : Monitor -> Prop) (f : World -> World) :
  (forall w, log (f w) = log w) ->
  (forall w, status (state (f w)) = TransformByQStatus.Cancelled ->
             status (state w) = TransformByQStatus.Cancelled) ->
  triple P (modify f) (fun r m => r = Ok tt /\ P m).
Proof.
  intros Hlog Hst m w HP Hinv. exists []. cbn. rewrite app_nil_r, Hlog.
  repeat split; auto. intros Hm Hc. apply (Hinv Hm), Hst, Hc.
Qed.

Lemma triple_emit (P : Monitor -> Prop) (e : Event) :
  (forall m, P m -> live m) -> isCheck e = false -> isStepStart e = false ->
  triple P (emit e) (fun r m => r = Ok tt /\ m = Idle).
Proof.
  intros HP Hc Hs m w Hm Hinv. exists [(status (state w), e)]. cbn.
  rewrite monitorStep_quiet by auto. repeat split. discriminate.
Qed.

(** A call that is not waited for across a suspension: it is logged and
    answers at once. *)
Lemma triple_call {A} (P : Monitor -> Prop) (e : Event) (answer : World -> Result A) :
  (forall m, P m -> live m) -> isCheck e = false -> isStepStart e = false ->
  triple P (call e answer) (fun r m => m = Idle).
Proof.
  intros HP Hc Hs m w Hm Hinv. exists [(status (state w), e)]. cbn.
  rewrite monitorStep_quiet by auto. repeat split. discriminate.
Qed.

(** An awaited call that does not begin a step. *)
Lemma triple_await {A} (P : Monitor -> Prop) (e : Event) (answer : World -> Result A) :
  (forall m, P m -> live m) -> isCheck e = false -> isStepStart e = false ->
  triple P (await K env e answer) (fun r m => m = Idle).
Proof.
  intros HP Hc Hs m w Hm Hinv. unfold await. cbn.
  destruct (interrupt_log K env (logged e w)) as (tail & Hl & Hq).
  exists ((status (state w), e) :: tail).
  change (monitor m ((status (state w), e) :: tail))
    with (monitor (monitorStep m (status (state w), e)) tail).
  rewrite monitorStep_quiet, monitor_quiet by auto.
  rewrite Hl. cbn. rewrite <- app_assoc. repeat split. discriminate.
Qed.

(** An awaited call that begins a step: the monitor must be [Checked]. *)
Lemma triple_await_start {A} (P : Monitor -> Prop) (e : Event) (answer : World -> Result A) :
  (forall m, P m -> m = Checked) -> isCheck e = false ->
  triple P (await K env e answer) (fun r m => m = Idle).
Proof.
  intros HP Hc m w Hm Hinv. apply HP in Hm. subst m. specialize (Hinv eq_refl).
  unfold await. cbn.
  destruct (interrupt_log K env (logged e w)) as (tail & Hl & Hq).
  exists ((status (state w), e) :: tail).
  change (monitor Checked ((status (state w), e) :: tail))
    with (monitor (monitorStep Checked (status (state w), e)) tail).
  assert (Hstep : monitorStep Checked (status (state w), e) = Idle).
  { unfold monitorStep. cbn. rewrite Hc. destruct (isStepStart e); [|reflexivity].
    destruct (decide (status (state w) = TransformByQStatus.Cancelled)); [contradiction|].
    reflexivity. }
  rewrite Hstep, monitor_quiet by auto.
  rewrite Hl. cbn. rewrite <- app_assoc. repeat split. discriminate.
Qed.

Lemma triple_throwIfCancelled (P : Monitor -> Prop) :
  (forall m, P m -> live m) ->
  triple P throwIfCancelled
    (fun r m => (r = Ok tt /\ m = Checked) \/
                (r = Throw TransformByQStoppedError /\ m = Aborted)).
Proof.
  intros HP m w Hm Hinv. apply HP in Hm.
  exists [(status (state w), ThrowIfCancelled)].
  unfold throwIfCancelled. run. cbn.
  destruct (isCancelled w) eqn:Hc; cbn.
  - apply isCancelled_true in Hc. rewrite Hc.
    split; [reflexivity|]. destruct Hm as [-> | ->]; cbn; split; auto; discriminate.
  - apply isCancelled_false in Hc.
    split; [reflexivity|].
    assert (Hstep : monitorStep m (status (state w), ThrowIfCancelled) = Checked).
    { unfold monitorStep. cbn.
      destruct (decide (status (state w) = TransformByQStatus.Cancelled)); [contradiction|].
      destruct Hm as [-> | ->]; reflexivity. }
    rewrite Hstep. split; auto.
Qed.

End Rules.

(** ** The steps of the run, read by the monitor *)

Ltac side :=
  intros; cbn in *; unfold live, outcome in *;
  intuition (subst; try discriminate; try congruence; auto).

Ltac setter :=
  unfold setToRunning, setToSucceeded, setToPartiallySucceeded, setToFailed,
    setJobId, setPayloadFilePath, setPlanFilePath, setJobFailureErrorMessage,
    setResultStatus, setStep;
  apply triple_modify; [intros; reflexivity | intros ?; cbn; congruence].

Ltac prim :=
  first [ apply triple_await; [side | reflexivity | reflexivity]
        | apply triple_call; [side | reflexivity | reflexivity]
        | apply triple_await_start; [side | reflexivity]
        | apply triple_emit; [side | reflexivity | reflexivity]
        | apply triple_throwIfCancelled; side
        | apply triple_ret
        | apply triple_throw
        | setter ].

Ltac hoare :=
  lazymatch goal with
  | |- triple _ (try_catch _ _ ≫= _) _ =>
      eapply triple_bind;
      [ eapply (triple_try_catch _ _ _ (fun _ m => m = Idle) (fun _ m => m = Idle));
        [hoare | intros ?; hoare | side]
      | intros ?; hoare
      | side ]
  | |- triple _ (try_catch _ _) _ =>
      eapply (triple_try_catch _ _ _ (fun _ m => m = Idle)); [hoare | intros ?; hoare | side]
  | |- triple _ (_ ≫= _) _ => eapply triple_bind; [prim | intros ?; hoare | side]
  | |- triple _ _ _ => eapply triple_post; [prim | side]
  end.

Section Steps.

Context (K : Constants) (env : Env).

Lemma triple_pre {A} (P P' : Monitor -> Prop) (c : M A) (Q : Result A -> Monitor -> Prop) :
  triple P c Q -> (forall m, P' m -> P m) -> triple P' c Q.
Proof. intros Hc HP m w Hm Hinv. apply Hc; auto. Qed.

Lemma preTransformationUploadCode_triple :
  triple live (preTransformationUploadCode K env) (outcome (fun m => m = Checked)).
Proof. unfold preTransformationUploadCode, executeCommand, sleep. hoare. Qed.

Lemma startTransformationJob_triple uploadId :
  triple (fun m => m = Checked) (startTransformationJob K env uploadId)
         (outcome (fun m => m = Checked)).
Proof. unfold startTransformationJob, executeCommand, sleep. hoare. Qed.

Lemma pollTransformationStatusUntilPlanReady_triple jobId :
  triple (fun m => m = Checked) (pollTransformationStatusUntilPlanReady K env jobId)
         (outcome (fun m => m = Checked)).
Proof. unfold pollTransformationStatusUntilPlanReady, executeCommand. cbv zeta. hoare. Qed.

Lemma pollTransformationStatusUntilComplete_triple jobId :
  triple (fun m => m = Checked) (pollTransformationStatusUntilComplete K env jobId)
         (outcome (fun m => m = Idle)).
Proof.
  unfold pollTransformationStatusUntilComplete.
  eapply (triple_try_catch _ _ _ (fun _ m => m = Idle)); [hoare | intros ?; hoare | side].
Qed.

Lemma finalizeTransformationJob_triple finalStatus :
  triple (fun m => m = Idle) (finalizeTransformationJob K env finalStatus)
         (outcome (fun m => m = Idle)).
Proof.
  unfold finalizeTransformationJob, executeCommand.
  destruct (negb _); [hoare|].
  eapply triple_bind; [prim | intros ? | side].
  eapply (triple_bind _ _ _ (fun r m => r = Ok tt /\ m = Idle));
    [ | intros ?; hoare | side].
  destruct (bool_decide _); hoare.
Qed.

Lemma startTransformByQ_steps_triple :
  triple live (startTransformByQ_steps K env) (outcome (fun m => m = Idle)).
Proof.
  unfold startTransformByQ_steps.
  eapply triple_bind; [prim | intros ? | side].
  eapply triple_bind;
    [eapply triple_pre; [apply preTransformationUploadCode_triple | side]
    | intros uploadId | side].
  eapply triple_bind;
    [eapply triple_pre; [apply startTransformationJob_triple | side]
    | intros jobId | side].
  eapply triple_bind;
    [eapply triple_pre; [apply pollTransformationStatusUntilPlanReady_triple | side]
    | intros ? | side].
  eapply triple_bind;
    [eapply triple_pre; [apply pollTransformationStatusUntilComplete_triple | side]
    | intros finalStatus | side].
  eapply triple_pre; [apply finalizeTransformationJob_triple | side].
Qed.

End Steps.

(** ** The job id kept by the job state *)

(** C10. [startTransformationJob], when the start call answers with a job
    id: the job state holds the HTML-encoded id, and the function returns
    the id as the service gave it (unless the check after the delay finds
    the job cancelled), so that the two differ whenever encoding changes
    the id.  When the start call fails, the job id of the state is left
    alone and the start error is raised.  The run history later records the
    job id held by the job state. *)
Theorem startTransformationJob_stores_encoded (K : Constants) (env : Env)
    (uploadId : string) (w : World) :
  let wc := interrupt K env (logged (StartJob uploadId) w) in
  let r := (startTransformationJob K env uploadId w).1 in
  let w' := (startTransformationJob K env uploadId w).2 in
  match startJob env uploadId wc with
  | Ok id =>
      jobId (state w') = encodeHTML env id
      /\ (r = Ok id \/ r = Throw TransformByQStoppedError)
      /\ (r = Ok id <-> status (state w') <> TransformByQStatus.Cancelled)
      /\ (encodeHTML env id <> id -> jobId (state w') <> id)
  | Throw _ =>
      r = Throw (JsError "Start job failed")
      /\ jobId (state w') = jobId (state w)
      /\ jobFailureErrorMessage (state w') = failedToStartJobMessage K
  end
  /\ forall w2, exists entry,
       sessionJobHistory (postTransformationJob K env w2).2 = [entry]
       /\ h_id entry = jobId (state w2).
Proof.
  cbv zeta. split.
  - unfold startTransformationJob, executeCommand, sleep, throwIfCancelled, await. run.
    destruct (startJob env uploadId (interrupt K env (logged (StartJob uploadId) w)))
      as [id|err].
    + match goal with
      | |- context [isCancelled ?x] => destruct (isCancelled x) eqn:Hc
      end.
      * apply isCancelled_true in Hc. fields. repeat (rewrite interrupt_jobId; fields).
        split; [reflexivity|]. split; [right; reflexivity|].
        split; [|intros Hne Heq; apply Hne; exact Heq].
        split; [discriminate|]. intros Hn. contradiction.
      * apply isCancelled_false in Hc. fields. repeat (rewrite interrupt_jobId; fields).
        split; [reflexivity|]. split; [left; reflexivity|].
        split; [|intros Hne Heq; apply Hne; exact Heq].
        split; [intros _; exact Hc|reflexivity].
    + fields. rewrite interrupt_jobId. fields.
      repeat split.
  - intros w2.
    destruct (processHistory_single K env w2) as (entry & He & Hid).
    exists entry. split; assumption.
Qed.

(** The service answers with the job id [job<1>]: the caller gets it as it
    is, the job state holds another string. *)
Lemma startTransformationJob_stores_encoded_witness :
  (startTransformationJob sampleConstants (sampleEnv false 0) "upload-1"
     (sampleWorld TransformByQStatus.Running)).1 = Ok "job<1>"
  /\ jobId (state (startTransformationJob sampleConstants (sampleEnv false 0) "upload-1"
                     (sampleWorld TransformByQStatus.Running)).2) <> "job<1>".
Proof.
  destruct (startTransformationJob_stores_encoded sampleConstants (sampleEnv false 0)
              "upload-1" (sampleWorld TransformByQStatus.Running)) as [H _].
  cbv zeta in H. cbn [startJob sampleEnv encodeHTML] in H.
  destruct H as (_ & _ & H3 & H4).
  split.
  - apply H3. vm_compute. discriminate.
  - apply H4. vm_compute. discriminate.
Defined.

(** ** A sample run *)

(** A run in which every call succeeds and the user does not interfere:
    the four steps begin in order, the polls carry the job id as the
    service gave it, and the history holds the encoded one. *)
Example sample_run :
  let w' := (startTransformByQ sampleConstants (sampleEnv false 0)
               (sampleWorld TransformByQStatus.NotStarted)).2 in
  filter (fun en => isStepStart en.2 = true) (log w') =
    [(TransformByQStatus.Running, ZipCode);
     (TransformByQStatus.Running, StartJob "upload-1");
     (TransformByQStatus.Running, PollTransformationJob "job<1>" ["PLANNED"]);
     (TransformByQStatus.Running, PollTransformationJob "job<1>" ["COMPLETED"])]
  /\ sessionJobHistory w' =
       [mkHistory "01/01/23, 12:00 AM" "my-module" "Succeeded" "1 sec" "job&#60;1&#62;"]
  /\ status (state w') = TransformByQStatus.NotStarted.
Proof. vm_compute. repeat split. Qed.

(** The same run with Stop pressed while the archive is built: the upload
    that belongs to the step still goes out, the check before the job start
    ends the run, the job is never started and the history records the
    cancellation. *)
Example sample_cancelled_run :
  let w' := (startTransformByQ sampleConstants (sampleEnv false 15)
               (sampleWorld TransformByQStatus.NotStarted)).2 in
  filter (fun en => isRemoteCall en.2 = true) (log w') =
    [(TransformByQStatus.Running, ZipCode);
     (TransformByQStatus.Cancelled, UploadPayload "payload.zip")]
  /\ sessionJobHistory w' =
       [mkHistory "01/01/23, 12:00 AM" "my-module" "Cancelled" "1 sec" "abc-123"].
Proof. vm_compute. repeat split. Qed.

(** ** The cases of [transformByQ.test.ts] *)

(** 'WHEN job status is cancelled THEN error is thrown' *)
Example test_throwIfCancelled :
  (throwIfCancelled (sampleWorld TransformByQStatus.Cancelled)).1
  = Throw TransformByQStoppedError.
Proof. vm_compute. reflexivity. Qed.

(** 'WHEN job is stopped THEN status is updated to cancelled' *)
Example test_stopTransformByQ :
  getStatus (stopTransformByQ sampleConstants (sampleEnv false 0) "abc-123"
               (sampleWorld TransformByQStatus.Running)).2 = "Cancelled".
Proof. vm_compute. reflexivity. Qed.

(** 'WHEN stop job called with valid jobId THEN stop API called' *)
Example test_stopJob_valid :
  log (stopJob (sampleEnv false 0) "dummyId" (sampleWorld TransformByQStatus.Running)).2
  = [(TransformByQStatus.Running, StopCodeTransformation "dummyId")].
Proof. vm_compute. reflexivity. Qed.

(** 'WHEN stop job that has not been started THEN stop API not called' *)
Example test_stopJob_not_started :
  log (stopJob (sampleEnv false 0) "" (sampleWorld TransformByQStatus.Running)).2 = [].
Proof. vm_compute. reflexivity. Qed.

(** 'WHEN process history called THEN returns details of last run job' *)
Example test_processHistory :
  processHistory [] "01/01/23, 12:00 AM" "my-module" "Succeeded" "20 sec" "123"
  = [mkHistory "01/01/23, 12:00 AM" "my-module" "Succeeded" "20 sec" "123"].
Proof. vm_compute. reflexivity. Qed.

(** 'WHEN get headers for upload artifact to S3 THEN returns correct header
    with kms key arn' *)
Example test_getHeadersObj_kms :
  getHeadersObj "dummy-sha-256" "dummy-kms-key-arn"
  = <["x-amz-checksum-sha256" := "dummy-sha-256"]>
      (<["Content-Type" := "application/zip"]>
        (<["x-amz-server-side-encryption" := "aws:kms"]>
          (<["x-amz-server-side-encryption-aws-kms-key-id" := "dummy-kms-key-arn"]> ∅))).
Proof. apply (bool_decide_unpack _). vm_compute. exact I. Qed.

(** 'WHEN get headers for upload artifact to S3 THEN returns correct headers
    without kms key arn' *)
Example test_getHeadersObj_no_kms :
  getHeadersObj "dummy-sha-256" ""
  = <["x-amz-checksum-sha256" := "dummy-sha-256"]>
      (<["Content-Type" := "application/zip"]> ∅).
Proof. apply (bool_decide_unpack _). vm_compute. exact I. Qed.

(** ** More on the run as a whole *)

Lemma transformationJobErrorHandler_returns (K : Constants) (error : Error) (w : World) :
  (transformationJobErrorHandler K error w).1 = Ok tt.
Proof.
  unfold transformationJobErrorHandler. run.
  destruct (isCancelled w); reflexivity.
Qed.

Lemma cleanupTransformationJob_returns (K : Constants) (env : Env) (w : World) :
  (cleanupTransformationJob K env w).1 = Ok tt.
Proof. unfold cleanupTransformationJob, executeCommand, await. run. reflexivity. Qed.

(** The run, cut at its blocks: the world after the preparation, after
    the [try] and [catch] blocks, and after the [finally] block. *)
Lemma startTransformByQ_blocks (K : Constants) (env : Env) (w : World) :
  let w1 := (setTransformationToRunningState K env w).2 in
  let w3 := (try_catch (startTransformByQ_steps K env) (transformationJobErrorHandler K) w1).2 in
  let w4 := (postTransformationJob K env w3).2 in
  (try_catch (startTransformByQ_steps K env) (transformationJobErrorHandler K) w1).1 = Ok tt
  /\ startTransformByQ K env w = (Ok tt, (cleanupTransformationJob K env w4).2).
Proof.
  cbv zeta. unfold startTransformByQ.
  change (setTransformationToRunningState K env ;;
          try_catch_finally (startTransformByQ_steps K env)
            (transformationJobErrorHandler K)
            (postTransformationJob K env ;; cleanupTransformationJob K env))
    with (M_bind _ _
            (fun _ : unit =>
               try_catch_finally (startTransformByQ_steps K env)
                 (transformationJobErrorHandler K)
                 (postTransformationJob K env ;; cleanupTransformationJob K env))
            (setTransformationToRunningState K env)).
  unfold M_bind.
  pose proof (setTransformationToRunningState_returns K env w) as Hr.
  destruct (setTransformationToRunningState K env w) as [r w1].
  cbn [fst snd] in *. subst r.
  assert (Htry : (try_catch (startTransformByQ_steps K env)
                    (transformationJobErrorHandler K) w1).1 = Ok tt).
  { unfold try_catch.
    destruct (startTransformByQ_steps K env w1) as [[[]|err] w2]; [reflexivity|].
    apply transformationJobErrorHandler_returns. }
  split; [exact Htry|].
  unfold try_catch_finally.
  destruct (try_catch (startTransformByQ_steps K env) (transformationJobErrorHandler K) w1)
    as [r2 w3].
  cbn [fst snd] in *. subst r2.
  change ((postTransformationJob K env ;; cleanupTransformationJob K env) w3)
    with (M_bind _ _ (fun _ : unit => cleanupTransformationJob K env)
            (postTransformationJob K env) w3).
  unfold M_bind.
  pose proof (postTransformationJob_returns K env w3) as Hp.
  destruct (postTransformationJob K env w3) as [r4 w4].
  cbn [fst snd] in *. subst r4.
  pose proof (cleanupTransformationJob_returns K env w4) as Hc.
  destruct (cleanupTransformationJob K env w4) as [r5 w5].
  cbn [fst snd] in *. subst r5. reflexivity.
Qed.

(** ** Rules for [spec] *)

Section SpecRules.

Context (K : Constants) (env : Env).

Lemma await_suspended {A} (e : Event) (answer : World -> Result A) (w : World) :
  (await K env e answer w).1 = answer (await K env e answer w).2
  /\ exists tail, Suspended w e (await K env e answer w).2 tail.
Proof.
  unfold await. cbn [fst snd]. split; [reflexivity|].
  unfold interrupt. destruct (userCancels env (logged e w)).
  - destruct (decide (status (state w) = TransformByQStatus.Running)) as [Hr|Hr].
    + destruct (stopTransformByQ_running K env (jobId (state (logged e w))) (logged e w) Hr)
        as (wc & text & _ & Hst & Hp & Hrs & Ht & Hh & Hl & _).
      eexists. unfold Suspended. rewrite Hl, Hst, Hp, Hrs, Ht, Hh. fields.
      split; [rewrite <- app_assoc; reflexivity|].
      split; [destruct (decide (jobId (state w) = "")); reflexivity|].
      split; [reflexivity|]. split; [reflexivity|]. split; [reflexivity|].
      right. split; [exact Hr|]. split; [reflexivity|]. split; [reflexivity|].
      destruct (decide (jobId (state w) = ""));
        cbn [app List.filter isStopCall snd length]; lia.
    + rewrite stopTransformByQ_idle by exact Hr. exists []. unfold Suspended. fields.
      repeat split. left. repeat split.
  - exists []. unfold Suspended. fields. repeat split. left. repeat split.
Qed.

Lemma spec_conseq {A} (P P' : Assertion) (c : M A) (Q Q' : Result A -> Assertion) :
  spec P c Q ->
  (forall new w, P' new w -> P new w) ->
  (forall r new w, Q r new w -> Q' r new w) ->
  spec P' c Q'.
Proof.
  intros Hc HP HQ l0 new w Hl Hp.
  destruct (Hc l0 new w Hl (HP _ _ Hp)) as (ext & He & Hq).
  exists ext. split; [exact He|]. apply HQ, Hq.
Qed.

Lemma spec_ret {A} (P : Assertion) (a : A) (Q : Result A -> Assertion) :
  (forall new w, P new w -> Q (Ok a) new w) -> spec P (mret a) Q.
Proof.
  intros H l0 new w Hl Hp. exists []. cbn [fst snd mret M_ret].
  rewrite !app_nil_r. split; [exact Hl|]. apply H, Hp.
Qed.

Lemma spec_throw {A} (P : Assertion) (e : Error) (Q : Result A -> Assertion) :
  (forall new w, P new w -> Q (Throw e) new w) -> spec P (throw e) Q.
Proof.
  intros H l0 new w Hl Hp. exists []. cbn [fst snd throw].
  rewrite !app_nil_r. split; [exact Hl|]. apply H, Hp.
Qed.

Lemma spec_gets {A} (P : Assertion) (f : World -> A) (Q : Result A -> Assertion) :
  (forall new w, P new w -> Q (Ok (f w)) new w) -> spec P (gets f) Q.
Proof.
  intros H l0 new w Hl Hp. exists []. cbn [fst snd gets].
  rewrite !app_nil_r. split; [exact Hl|]. apply H, Hp.
Qed.

Lemma spec_modify (P : Assertion) (f : World -> World) (Q : Result unit -> Assertion) :
  (forall w, log (f w) = log w) ->
  (forall new w, P new w -> Q (Ok tt) new (f w)) ->
  spec P (modify f) Q.
Proof.
  intros Hlog H l0 new w Hl Hp. exists []. cbn [fst snd modify].
  rewrite !app_nil_r, Hlog. split; [exact Hl|]. apply H, Hp.
Qed.

Lemma spec_emit (P : Assertion) (e : Event) (Q : Result unit -> Assertion) :
  (forall new w, P new w -> Q (Ok tt) (new ++ [(status (state w), e)]) (logged e w)) ->
  spec P (emit e) Q.
Proof.
  intros H l0 new w Hl Hp. exists [(status (state w), e)].
  unfold emit, modify. cbn [fst snd]. split; [|apply H, Hp].
  unfold logged. cbn [log]. rewrite Hl, <- app_assoc. reflexivity.
Qed.

Lemma spec_call {A} (P : Assertion) (e : Event) (answer : World -> Result A)
    (Q : Result A -> Assertion) :
  (forall new w, P new w ->
     Q (answer (logged e w)) (new ++ [(status (state w), e)]) (logged e w)) ->
  spec P (call e answer) Q.
Proof.
  intros H l0 new w Hl Hp. exists [(status (state w), e)].
  unfold call. cbn [fst snd]. split; [|apply H, Hp].
  unfold logged. cbn [log]. rewrite Hl, <- app_assoc. reflexivity.
Qed.

Lemma spec_await {A} (P : Assertion) (e : Event) (answer : World -> Result A)
    (Q : Result A -> Assertion) :
  (forall new w w1 tail,
     P new w -> Suspended w e w1 tail ->
     Q (answer w1) (new ++ (status (state w), e) :: tail) w1) ->
  spec P (await K env e answer) Q.
Proof.
  intros H l0 new w Hl Hp.
  destruct (await_suspended e answer w) as (Hr & tail & Hs).
  exists ((status (state w), e) :: tail). rewrite Hr. split; [|apply H; assumption].
  destruct Hs as (Hlog & _). rewrite Hlog, Hl, <- app_assoc. reflexivity.
Qed.

Lemma spec_bind {A B} (P : Assertion) (c : M A) (f : A -> M B)
    (Q : Result A -> Assertion) (R : Result B -> Assertion) :
  spec P c Q ->
  (forall a, spec (Q (Ok a)) (f a) R) ->
  (forall e new w, Q (Throw e) new w -> R (Throw e) new w) ->
  spec P (c ≫= f) R.
Proof.
  intros Hc Hf Hthrow l0 new w Hl Hp.
  destruct (Hc l0 new w Hl Hp) as (ext1 & He1 & Hq).
  unfold mbind, M_bind. destruct (c w) as [[a|e] w1]; cbn [fst snd] in *.
  - destruct (Hf a l0 (new ++ ext1) w1 He1 Hq) as (ext2 & He2 & Hr).
    exists (ext1 ++ ext2). rewrite <- !app_assoc in He2, Hr. split; assumption.
  - exists ext1. split; [exact He1|]. apply Hthrow, Hq.
Qed.

Lemma spec_try_catch {A} (P : Assertion) (c : M A) (h : Error -> M A)
    (Q R : Result A -> Assertion) :
  spec P c Q ->
  (forall e, spec (Q (Throw e)) (h e) R) ->
  (forall a new w, Q (Ok a) new w -> R (Ok a) new w) ->
  spec P (try_catch c h) R.
Proof.
  intros Hc Hh Hok l0 new w Hl Hp.
  destruct (Hc l0 new w Hl Hp) as (ext1 & He1 & Hq).
  unfold try_catch. destruct (c w) as [[a|e] w1]; cbn [fst snd] in *.
  - exists ext1. split; [exact He1|]. apply Hok, Hq.
  - destruct (Hh e l0 (new ++ ext1) w1 He1 Hq) as (ext2 & He2 & Hr).
    exists (ext1 ++ ext2). rewrite <- !app_assoc in He2, Hr. split; assumption.
Qed.

End SpecRules.

Section KeepsRules.

Context (K : Constants) (env : Env).

Lemma keeps_ret {A} (I : Assertion) (a : A) : keeps I (mret a).
Proof. apply spec_ret. auto. Qed.

Lemma keeps_throw {A} (I : Assertion) (e : Error) : keeps I (throw e : M A).
Proof. apply spec_throw. auto. Qed.

Lemma keeps_gets {A} (I : Assertion) (f : World -> A) : keeps I (gets f).
Proof. apply spec_gets. auto. Qed.

Lemma keeps_modify (I : Assertion) (f : World -> World) :
  (forall w, log (f w) = log w) ->
  (forall new w, I new w -> I new (f w)) ->
  keeps I (modify f).
Proof. intros Hl H. apply spec_modify; assumption. Qed.

Lemma keeps_emit (I : Assertion) (e : Event) :
  (forall new w, I new w -> I (new ++ [(status (state w), e)]) (logged e w)) ->
  keeps I (emit e).
Proof. intros H. apply spec_emit. exact H. Qed.

Lemma keeps_call {A} (I : Assertion) (e : Event) (answer : World -> Result A) :
  (forall new w, I new w -> I (new ++ [(status (state w), e)]) (logged e w)) ->
  keeps I (call e answer).
Proof. intros H. apply spec_call. exact H. Qed.

Lemma keeps_await {A} (I : Assertion) (e : Event) (answer : World -> Result A) :
  (forall new w w1 tail,
     I new w -> Suspended w e w1 tail -> I (new ++ (status (state w), e) :: tail) w1) ->
  keeps I (await K env e answer).
Proof. intros H. apply spec_await. exact H. Qed.

Lemma keeps_bind {A B} (I : Assertion) (c : M A) (f : A -> M B) :
  keeps I c -> (forall a, keeps I (f a)) -> keeps I (c ≫= f).
Proof. intros Hc Hf. eapply spec_bind; [exact Hc|exact Hf|auto]. Qed.

Lemma keeps_try_catch {A} (I : Assertion) (c : M A) (h : Error -> M A) :
  keeps I c -> (forall e, keeps I (h e)) -> keeps I (try_catch c h).
Proof. intros Hc Hh. eapply spec_try_catch; [exact Hc|exact Hh|auto]. Qed.

(** After a computation that keeps [I], another one that turns [I] into
    [Q]. *)
Lemma keeps_then {A B} (I : Assertion) (c : M A) (f : A -> M B)
    (Q : Result B -> Assertion) :
  keeps I c -> (forall a, spec I (f a) Q) ->
  (forall e new w, I new w -> Q (Throw e) new w) ->
  spec I (c ≫= f) Q.
Proof. intros Hc Hf Ht. eapply spec_bind; [exact Hc|exact Hf|exact Ht]. Qed.

End KeepsRules.

(** Walks through a computation, leaving what the invariant has to
    survive: the changes of the world, the effects and the suspensions. *)
Ltac walk :=
  lazymatch goal with
  | |- keeps _ (_ ≫= _) => apply keeps_bind; [walk | intros ?; walk]
  | |- keeps _ (try_catch _ _) => apply keeps_try_catch; [walk | intros ?; walk]
  | |- keeps _ (if ?b then _ else _) => destruct b; walk
  | |- keeps _ (mret _) => apply keeps_ret
  | |- keeps _ (throw _) => apply keeps_throw
  | |- keeps _ (gets _) => apply keeps_gets
  | |- keeps _ (modify _) => apply keeps_modify; [intros; reflexivity | ]
  | |- keeps _ (emit _) => apply keeps_emit
  | |- keeps _ (call _ _) => apply keeps_call
  | |- keeps _ (await _ _ _ _) => apply keeps_await
  | |- _ => idtac
  end.

Ltac as_keeps := match goal with |- spec ?I ?c _ => change (keeps I c) end.

(** Unfolds a step down to the primitives that [walk] knows. *)
Ltac primitives :=
  cbv [executeCommand sleep throwIfCancelled
       setToRunning setToSucceeded setToPartiallySucceeded setToFailed setToCancelled
       setJobId setPayloadFilePath setPlanFilePath setJobFailureErrorMessage setJobDefaults
       setMavenName setResultStatus setStep].

(** ** The outcome of a run: status and telemetry agree *)

Section Outcome.

Context (K : Constants) (env : Env).

Lemma runningOrCancelled_suspended new w e w1 tail :
  runningOrCancelled new w -> Suspended w e w1 tail ->
  runningOrCancelled (new ++ (status (state w), e) :: tail) w1.
Proof.
  unfold runningOrCancelled.
  intros H (_ & _ & _ & _ & _ & [(-> & -> & _)|(_ & -> & -> & _)]).
  - exact H.
  - right. split; reflexivity.
Qed.

Ltac stable :=
  first [ intros; eapply runningOrCancelled_suspended; eassumption
        | intros ? ? H; exact H ].

Lemma preTransformationUploadCode_keeps_running :
  keeps runningOrCancelled (preTransformationUploadCode K env).
Proof. unfold preTransformationUploadCode. primitives. walk; stable. Qed.

Lemma startTransformationJob_keeps_running uploadId :
  keeps runningOrCancelled (startTransformationJob K env uploadId).
Proof. unfold startTransformationJob. primitives. walk; stable. Qed.

Lemma pollTransformationStatusUntilPlanReady_keeps_running jobId :
  keeps runningOrCancelled (pollTransformationStatusUntilPlanReady K env jobId).
Proof.
  unfold pollTransformationStatusUntilPlanReady. primitives. cbv zeta. walk; stable.
Qed.

Lemma pollTransformationStatusUntilComplete_keeps_running jobId :
  keeps runningOrCancelled (pollTransformationStatusUntilComplete K env jobId).
Proof. unfold pollTransformationStatusUntilComplete. primitives. walk; stable. Qed.

(** A computation that only adds to the log, and what it does to the
    rest of the world. *)
Lemma spec_state {A} (P : World -> Prop) (c : M A) (Q : Result A -> World -> Prop) :
  keeps (fun _ _ => True) c ->
  (forall w, P w -> Q (c w).1 (c w).2) ->
  spec (fun _ => P) c (fun r _ => Q r).
Proof.
  intros Hg H l0 new w Hl Hp.
  destruct (Hg l0 new w Hl I) as (ext & He & _).
  exists ext. split; [exact He|]. apply H, Hp.
Qed.

Lemma finalizeTransformationJob_grows finalStatus :
  keeps (fun _ _ => True) (finalizeTransformationJob K env finalStatus).
Proof. unfold finalizeTransformationJob. primitives. walk; auto. Qed.

Lemma finalizeTransformationJob_settles finalStatus :
  spec runningOrCancelled (finalizeTransformationJob K env finalStatus)
       (fun r new w => match r with
                       | Ok _ => succeeded new w
                       | Throw _ => runningOrCancelled new w
                       end).
Proof.
  apply (spec_state (runningOrCancelled [])
           (finalizeTransformationJob K env finalStatus)
           (fun r w => match r with
                       | Ok _ => succeeded [] w
                       | Throw _ => runningOrCancelled [] w
                       end)).
  { apply finalizeTransformationJob_grows. }
  intros w Hw. unfold finalizeTransformationJob.
  destruct (negb _).
  - run. fields. exact Hw.
  - destruct (bool_decide (finalStatus = "PARTIALLY_COMPLETED")).
    + unfold executeCommand, await. run. uninterrupted K env. fields.
      right. split; reflexivity.
    + unfold executeCommand, await. run. uninterrupted K env. fields.
      left. split; reflexivity.
Qed.

Lemma startTransformByQ_steps_settles :
  spec runningOrCancelled (startTransformByQ_steps K env)
       (fun r new w => match r with
                       | Ok _ => succeeded new w
                       | Throw _ => runningOrCancelled new w
                       end).
Proof.
  unfold startTransformByQ_steps.
  apply keeps_then; [walk; stable| |auto]. intros _.
  apply keeps_then; [apply preTransformationUploadCode_keeps_running| |auto].
  intros uploadId.
  apply keeps_then; [apply startTransformationJob_keeps_running| |auto].
  intros jobId.
  apply keeps_then; [apply pollTransformationStatusUntilPlanReady_keeps_running| |auto].
  intros _.
  apply keeps_then; [apply pollTransformationStatusUntilComplete_keeps_running| |auto].
  intros finalStatus. apply finalizeTransformationJob_settles.
Qed.

Lemma transformationJobErrorHandler_grows error :
  keeps (fun _ _ => True) (transformationJobErrorHandler K error).
Proof. unfold transformationJobErrorHandler. primitives. walk; auto. Qed.

Lemma transformationJobErrorHandler_settles error :
  spec runningOrCancelled (transformationJobErrorHandler K error) (fun _ => settled).
Proof.
  apply (spec_state (runningOrCancelled []) (transformationJobErrorHandler K error)
           (fun _ w => settled [] w)).
  { apply transformationJobErrorHandler_grows. }
  intros w Hw. unfold transformationJobErrorHandler. run.
  destruct (isCancelled w) eqn:Hc; cbn [negb]; fields.
  - apply isCancelled_true in Hc. right. right.
    destruct Hw as [Hw|Hw]; [congruence|exact Hw].
  - right. left. split; reflexivity.
Qed.

(** After the [try] and [catch] blocks the job is settled. *)
Lemma try_catch_settles :
  spec runningOrCancelled
       (try_catch (startTransformByQ_steps K env) (transformationJobErrorHandler K))
       (fun _ => settled).
Proof.
  eapply spec_try_catch.
  - apply startTransformByQ_steps_settles.
  - intros e. apply transformationJobErrorHandler_settles.
  - intros a new w Hs. left. exact Hs.
Qed.

Lemma setContextVariables_grows : keeps (fun _ _ => True) (setContextVariables K env).
Proof. unfold setContextVariables. primitives. walk; auto. Qed.

Lemma setTransformationToRunningState_runs :
  spec (fun _ _ => True) (setTransformationToRunningState K env) (onOk runningOrCancelled).
Proof.
  unfold setTransformationToRunningState.
  eapply (spec_bind _ _ _ (fun _ _ _ => True)).
  - apply setContextVariables_grows.
  - intros u.
    eapply (spec_bind _ _ _ (fun r new w => r = Ok tt /\ runningOrCancelled new w)).
    + unfold setToRunning. apply spec_modify; [intros; reflexivity|].
      intros new w _. split; [reflexivity|]. left. reflexivity.
    + intros u'.
      eapply (spec_conseq runningOrCancelled _ _ (fun _ => runningOrCancelled)).
      * match goal with |- spec ?I ?c _ => change (keeps I c) end.
        primitives. walk; stable.
      * intros new w [_ H]. exact H.
      * intros [a|e] new w H; [exact H|exact I].
    + intros e new w [H _]. discriminate.
  - intros e new w _. exact I.
Qed.

End Outcome.

Lemma postTransformationJob_of_settled (K : Constants) (env : Env) (w : World) :
  status (state w) <> TransformByQStatus.Running ->
  let w' := (postTransformationJob K env w).2 in
  resultStatus w' = resultStatus w
  /\ state w' = state w
  /\ exists duration',
       sessionJobHistory w' =
         [mkHistory (convertDateToTimestamp env (startTime w)) (projectName (state w))
                    (getStatus w) duration' (jobId (state w))].
Proof.
  intros Hs. cbv zeta. unfold postTransformationJob, await. run.
  destruct (chatControllers env _); cbv beta iota.
  all: rewrite interrupt_idle by (fields; exact Hs).
  all: repeat match goal with
         | |- context [if ?b then _ else _] => destruct b
         end.
  all: fields; unfold processHistory, getStatus; fields.
  all: split; [reflexivity|]; split; [reflexivity|]; eexists; reflexivity.
Qed.

Lemma cleanupTransformationJob_resultStatus (K : Constants) (env : Env) (w : World) :
  resultStatus (cleanupTransformationJob K env w).2 = resultStatus w.
Proof.
  unfold cleanupTransformationJob, executeCommand, await. run.
  uninterrupted K env. fields. reflexivity.
Qed.

(** After the [try] and [catch] blocks of a run the job is settled. *)
Lemma startTransformByQ_settled (K : Constants) (env : Env) (w : World) :
  let w1 := (setTransformationToRunningState K env w).2 in
  settled []
    (try_catch (startTransformByQ_steps K env) (transformationJobErrorHandler K) w1).2.
Proof.
  cbv zeta.
  destruct (setTransformationToRunningState_runs K env (log w) [] w) as (ext1 & Hl1 & H1).
  { rewrite app_nil_r. reflexivity. }
  { exact I. }
  rewrite (setTransformationToRunningState_returns K env w) in H1. cbn [onOk] in H1.
  destruct (try_catch_settles K env (log w) ([] ++ ext1)
              (setTransformationToRunningState K env w).2 Hl1 H1) as (ext2 & _ & H2).
  exact H2.
Qed.

(** X3. The history entry and the telemetry of a run agree: after any run
    of [startTransformByQ] the history holds one entry whose status is one
    of the four final statuses, and the result kept for the telemetry is
    the one that goes with that status. *)
Theorem startTransformByQ_history_matches_telemetry (K : Constants) (env : Env) (w : World) :
  let w' := (startTransformByQ K env w).2 in
  exists entry,
    sessionJobHistory w' = [entry]
    /\ ((h_status entry = "Succeeded" /\ resultStatus w' = "JobCompletedSuccessfully")
        \/ (h_status entry = "PartiallySucceeded" /\ resultStatus w' = "JobPartiallySucceeded")
        \/ (h_status entry = "Failed" /\ resultStatus w' = "JobFailed")
        \/ (h_status entry = "Cancelled" /\ resultStatus w' = "JobCancelled")).
Proof.
  cbv zeta.
  destruct (startTransformByQ_blocks K env w) as [_ ->]. cbn [snd].
  pose proof (startTransformByQ_settled K env w) as Hs. cbv zeta in Hs.
  set (w3 := (try_catch (startTransformByQ_steps K env) (transformationJobErrorHandler K)
                (setTransformationToRunningState K env w).2).2) in *.
  assert (Hnr : status (state w3) <> TransformByQStatus.Running).
  { destruct Hs as [[[H _]|[H _]]|[[H _]|[H _]]]; rewrite H; discriminate. }
  destruct (postTransformationJob_of_settled K env w3 Hnr) as (Hrs & _ & d & Hh).
  rewrite cleanupTransformationJob_history, cleanupTransformationJob_resultStatus.
  rewrite Hh, Hrs. eexists. split; [reflexivity|]. cbn [h_status]. unfold getStatus.
  destruct Hs as [[[H1 H2]|[H1 H2]]|[[H1 H2]|[H1 H2]]]; rewrite H1, H2.
  - left. split; reflexivity.
  - right. left. split; reflexivity.
  - right. right. left. split; reflexivity.
  - right. right. right. split; reflexivity.
Qed.

(** ** Assertions on the whole run *)

(** The run, block by block: the preparation, the [try] and [catch]
    blocks, and the two halves of the [finally] block. *)
Lemma startTransformByQ_spec (K : Constants) (env : Env) (P I1 I2 I3 I4 : Assertion) :
  spec P (setTransformationToRunningState K env) (onOk I1) ->
  spec I1 (try_catch (startTransformByQ_steps K env) (transformationJobErrorHandler K))
       (onOk I2) ->
  spec I2 (postTransformationJob K env) (onOk I3) ->
  spec I3 (cleanupTransformationJob K env) (onOk I4) ->
  spec P (startTransformByQ K env) (fun _ => I4).
Proof.
  intros H1 H2 H3 H4 l0 new w Hl Hp.
  destruct (startTransformByQ_blocks K env w) as [Htry ->]. cbn [fst snd].
  destruct (H1 l0 new w Hl Hp) as (ext1 & Hl1 & Hq1).
  rewrite (setTransformationToRunningState_returns K env w) in Hq1. cbn [onOk] in Hq1.
  destruct (H2 l0 (new ++ ext1) _ Hl1 Hq1) as (ext2 & Hl2 & Hq2).
  rewrite Htry in Hq2. cbn [onOk] in Hq2.
  destruct (H3 l0 ((new ++ ext1) ++ ext2) _ Hl2 Hq2) as (ext3 & Hl3 & Hq3).
  rewrite postTransformationJob_returns in Hq3. cbn [onOk] in Hq3.
  destruct (H4 l0 (((new ++ ext1) ++ ext2) ++ ext3) _ Hl3 Hq3) as (ext4 & Hl4 & Hq4).
  rewrite cleanupTransformationJob_returns in Hq4. cbn [onOk] in Hq4.
  exists (ext1 ++ ext2 ++ ext3 ++ ext4).
  rewrite <- !app_assoc in Hl4, Hq4. split; assumption.
Qed.

Lemma keeps_onOk {A} (I : Assertion) (c : M A) : keeps I c -> spec I c (onOk I).
Proof.
  intros H. eapply spec_conseq; [exact H|auto|].
  intros [a|e] new w Hi; [exact Hi|constructor].
Qed.

Lemma quiet_elem (tail : list Entry) (s : TransformByQStatus.t) (e : Event) :
  forallb quiet tail = true -> (s, e) ∈ tail ->
  isRemoteCall e = false /\ isCheck e = false.
Proof.
  intros Hq Hin. rewrite forallb_forall in Hq.
  apply list_elem_of_In in Hin. specialize (Hq _ Hin).
  unfold quiet in Hq. cbn [snd] in Hq.
  apply andb_true_iff in Hq as [Hc Hr].
  apply negb_true_iff in Hc, Hr. split; assumption.
Qed.

Lemma elem_of_suspended (new tail : list Entry) (en x : Entry) :
  x ∈ new ++ en :: tail -> x ∈ new \/ x = en \/ x ∈ tail.
Proof.
  rewrite elem_of_app, elem_of_cons. tauto.
Qed.

(** Where an entry of a log that was extended lies. *)
Lemma split_after_prefix {X} (A R before after : list X) (x : X) :
  x ∉ A -> A ++ R = before ++ x :: after ->
  exists rest, before = A ++ rest /\ R = rest ++ x :: after.
Proof.
  revert before. induction A as [|a A IH]; intros before Hn Heq.
  - exists before. split; [reflexivity|exact Heq].
  - destruct before as [|b before]; cbn in Heq; injection Heq as -> Heq.
    + exfalso. apply Hn. apply list_elem_of_here.
    + destruct (IH before) as (rest & -> & ->); [|exact Heq|].
      * intros Hin. apply Hn. apply list_elem_of_further. exact Hin.
      * exists rest. split; reflexivity.
Qed.

Lemma split_before_suffix {X} (S T before after : list X) (x : X) :
  x ∉ T -> S ++ T = before ++ x :: after ->
  exists rest, S = before ++ x :: rest /\ after = rest ++ T.
Proof.
  revert S. induction before as [|b before IH]; intros S Hn Heq.
  - destruct S as [|y S]; cbn in Heq.
    + exfalso. apply Hn. rewrite Heq. apply list_elem_of_here.
    + injection Heq as -> Heq. exists S. split; [reflexivity|]. symmetry. exact Heq.
  - destruct S as [|y S]; cbn in Heq.
    + exfalso. apply Hn. rewrite Heq. apply list_elem_of_further.
      apply elem_of_app. right. apply list_elem_of_here.
    + injection Heq as -> Heq. destruct (IH S Hn Heq) as (rest & -> & ->).
      exists rest. split; reflexivity.
Qed.


(** ** The archive is deleted *)

Section Archive.

Context (K : Constants) (env : Env).

Lemma noUpload_recorded new w : noUpload new w -> uploadRecorded new w.
Proof. intros H s p Hin. destruct (H s p Hin). Qed.

Lemma noUpload_emit e :
  (forall p, e <> UploadPayload p) ->
  forall new w, noUpload new w -> noUpload (new ++ [(status (state w), e)]) (logged e w).
Proof.
  intros He new w H s p Hin. apply elem_of_app in Hin as [Hin|Hin].
  - exact (H s p Hin).
  - apply list_elem_of_singleton in Hin. injection Hin as _ Heq.
    exact (He p (eq_sym Heq)).
Qed.

Lemma noUpload_suspended e :
  (forall p, e <> UploadPayload p) ->
  forall new w w1 tail,
    noUpload new w -> Suspended w e w1 tail ->
    noUpload (new ++ (status (state w), e) :: tail) w1.
Proof.
  intros He new w w1 tail H (_ & Hq & _) s p Hin.
  apply elem_of_suspended in Hin as [Hin|[Hin|Hin]].
  - exact (H s p Hin).
  - injection Hin as _ Heq. exact (He p (eq_sym Heq)).
  - destruct (quiet_elem tail s _ Hq Hin) as [Hr _]. discriminate.
Qed.

Lemma uploadRecorded_emit e :
  (forall p, e <> UploadPayload p) ->
  forall new w,
    uploadRecorded new w -> uploadRecorded (new ++ [(status (state w), e)]) (logged e w).
Proof.
  intros He new w H s p Hin. apply elem_of_app in Hin as [Hin|Hin].
  - exact (H s p Hin).
  - apply list_elem_of_singleton in Hin. injection Hin as _ Heq.
    destruct (He p (eq_sym Heq)).
Qed.

Lemma Suspended_payloadFilePath w e w1 tail :
  Suspended w e w1 tail -> payloadFilePath (state w1) = payloadFilePath (state w).
Proof.
  intros (_ & _ & _ & _ & _ & [(-> & _)|(_ & -> & _)]); reflexivity.
Qed.

Lemma uploadRecorded_suspended e :
  (forall p, e <> UploadPayload p) ->
  forall new w w1 tail,
    uploadRecorded new w -> Suspended w e w1 tail ->
    uploadRecorded (new ++ (status (state w), e) :: tail) w1.
Proof.
  intros He new w w1 tail H Hs s p Hin.
  rewrite (Suspended_payloadFilePath _ _ _ _ Hs).
  destruct Hs as (_ & Hq & _).
  apply elem_of_suspended in Hin as [Hin|[Hin|Hin]].
  - exact (H s p Hin).
  - injection Hin as _ Heq. destruct (He p (eq_sym Heq)).
  - destruct (quiet_elem tail s _ Hq Hin) as [Hr _]. discriminate.
Qed.

Ltac no_upload :=
  first [ apply noUpload_emit; intros ?; discriminate
        | apply noUpload_suspended; intros ?; discriminate
        | intros ? ? H; exact H ].

Ltac recorded :=
  first [ apply uploadRecorded_emit; intros ?; discriminate
        | apply uploadRecorded_suspended; intros ?; discriminate
        | intros ? ? H; exact H ].

(** The upload step: the archive that is uploaded is the one recorded. *)
Lemma preTransformationUploadCode_records :
  spec noUpload (preTransformationUploadCode K env) (fun _ => uploadRecorded).
Proof.
  unfold preTransformationUploadCode.
  apply (spec_bind _ _ _ (fun _ => noUpload));
    [as_keeps; primitives; walk; no_upload | intros u1 | intros; apply noUpload_recorded; assumption].
  apply (spec_bind _ _ _ (fun _ => noUpload));
    [as_keeps; primitives; walk; no_upload | intros u2 | intros; apply noUpload_recorded; assumption].
  apply (spec_bind _ _ _ (fun _ => noUpload));
    [as_keeps; primitives; walk; no_upload | intros u3 | intros; apply noUpload_recorded; assumption].
  apply (spec_bind _ _ _ (fun _ => uploadRecorded)); [ | intros uploadId | auto].
  - apply (spec_try_catch _ _ _ (fun _ => uploadRecorded)); [ | intros err | auto].
    + apply (spec_bind _ _ _ (fun _ => noUpload));
        [as_keeps; walk; no_upload | intros payload
        | intros; apply noUpload_recorded; assumption].
      apply (spec_bind _ _ _
               (fun r new w => r = Ok tt /\ noUpload new w
                               /\ payloadFilePath (state w) = payload)).
      * unfold setPayloadFilePath. apply spec_modify; [intros; reflexivity|].
        intros new w H. split; [reflexivity|]. split; [exact H|reflexivity].
      * intros u4. apply spec_await.
        intros new w w1 tail (_ & Hn & Hp) Hs s p Hin.
        rewrite (Suspended_payloadFilePath _ _ _ _ Hs), Hp.
        destruct Hs as (_ & Hq & _).
        apply elem_of_suspended in Hin as [Hin|[Hin|Hin]].
        -- destruct (Hn s p Hin).
        -- injection Hin as _ Heq. exact (eq_sym Heq).
        -- destruct (quiet_elem tail s _ Hq Hin) as [Hr _]. discriminate.
      * intros e new w (H & _). discriminate.
    + as_keeps.
      walk; recorded.
  - as_keeps.
    primitives. walk; recorded.
Qed.

Lemma keeps_then_onOk {A B} (I Q : Assertion) (c : M A) (f : A -> M B) :
  keeps I c -> (forall a, spec I (f a) (onOk Q)) -> spec I (c ≫= f) (onOk Q).
Proof.
  intros Hc Hf. eapply spec_bind; [exact Hc|exact Hf|]. intros; exact Logic.I.
Qed.

Lemma startTransformByQ_steps_records :
  spec noUpload (startTransformByQ_steps K env) (fun _ => uploadRecorded).
Proof.
  unfold startTransformByQ_steps.
  apply (spec_bind _ _ _ (fun _ => noUpload));
    [as_keeps; walk; no_upload | intros u1 | intros; apply noUpload_recorded; assumption].
  apply (spec_bind _ _ _ (fun _ => uploadRecorded));
    [apply preTransformationUploadCode_records | intros uploadId | auto].
  as_keeps.
  unfold startTransformationJob, pollTransformationStatusUntilPlanReady,
    pollTransformationStatusUntilComplete, finalizeTransformationJob.
  primitives. cbv zeta. walk; recorded.
Qed.

Lemma try_catch_records :
  spec noUpload
       (try_catch (startTransformByQ_steps K env) (transformationJobErrorHandler K))
       (onOk uploadRecorded).
Proof.
  apply (spec_try_catch _ _ _ (fun _ => uploadRecorded)).
  - apply startTransformByQ_steps_records.
  - intros e. apply keeps_onOk. unfold transformationJobErrorHandler.
    primitives. cbv zeta. walk; recorded.
  - auto.
Qed.

Lemma setTransformationToRunningState_no_upload :
  spec noUpload (setTransformationToRunningState K env) (onOk noUpload).
Proof.
  apply keeps_onOk. unfold setTransformationToRunningState, setContextVariables.
  primitives. walk; no_upload.
Qed.

Lemma uploadRemoved_emit e :
  forall new w,
    uploadRemoved new w -> (forall p, e <> UploadPayload p) ->
    uploadRemoved (new ++ [(status (state w), e)]) (logged e w).
Proof.
  intros new w H He before s p after Heq Hp.
  destruct (split_before_suffix new [(status (state w), e)] before after
              (s, UploadPayload p)) as (rest & Hnew & ->); [|exact Heq|].
  - intros Hin. apply list_elem_of_singleton in Hin. injection Hin as _ Hin.
    exact (He p (eq_sym Hin)).
  - destruct (H before s p rest Hnew Hp) as (s' & Hrm).
    exists s'. apply elem_of_app. left. exact Hrm.
Qed.

Lemma uploadRemoved_suspended e :
  (forall p, e <> UploadPayload p) ->
  forall new w w1 tail,
    uploadRemoved new w -> Suspended w e w1 tail ->
    uploadRemoved (new ++ (status (state w), e) :: tail) w1.
Proof.
  intros He new w w1 tail H (_ & Hq & _) before s p after Heq Hp.
  destruct (split_before_suffix new ((status (state w), e) :: tail) before after
              (s, UploadPayload p)) as (rest & Hnew & ->); [|exact Heq|].
  - intros Hin. apply elem_of_cons in Hin as [Hin|Hin].
    + injection Hin as _ Hin. exact (He p (eq_sym Hin)).
    + destruct (quiet_elem tail s _ Hq Hin) as [Hr _]. discriminate.
  - destruct (H before s p rest Hnew Hp) as (s' & Hrm).
    exists s'. apply elem_of_app. left. exact Hrm.
Qed.

Ltac removed :=
  first [ intros; apply uploadRemoved_emit; [assumption | intros ?; discriminate]
        | apply uploadRemoved_suspended; intros ?; discriminate
        | intros ? ? H; exact H ].

(** The first half of the [finally] block deletes the archive. *)
Lemma postTransformationJob_removes :
  spec uploadRecorded (postTransformationJob K env) (onOk uploadRemoved).
Proof.
  unfold postTransformationJob.
  do 20 (apply keeps_then_onOk; [primitives; walk; recorded | intros ?]).
  apply (spec_bind _ _ _
           (fun r new w => r = Ok (payloadFilePath (state w)) /\ uploadRecorded new w)).
  - apply spec_gets. intros new w H. split; [reflexivity|exact H].
  - intros payload. destruct (decide (payload = "")) as [He|Hne].
    + apply spec_ret. intros new w [Hp H] before s p after Heq Hnp.
      injection Hp as Hp. rewrite (H s p) in Hp; [congruence|].
      rewrite Heq. apply elem_of_app. right. apply list_elem_of_here.
    + apply spec_emit. intros new w [Hp H] before s p after Heq Hnp.
      injection Hp as Hp.
      destruct (split_before_suffix new [(status (state w), RmSync payload)] before after
                  (s, UploadPayload p)) as (rest & Hnew & ->); [|exact Heq|].
      * intros Hin. apply list_elem_of_singleton in Hin. discriminate.
      * exists (status (state w)). apply elem_of_app. right.
        apply list_elem_of_singleton. rewrite Hp, (H s p); [reflexivity|].
        rewrite Hnew. apply elem_of_app. right. apply list_elem_of_here.
  - intros e new w [H _]. discriminate.
Qed.

Lemma cleanupTransformationJob_keeps_removed :
  spec uploadRemoved (cleanupTransformationJob K env) (onOk uploadRemoved).
Proof.
  apply keeps_onOk. unfold cleanupTransformationJob. primitives. walk; removed.
Qed.

End Archive.

(** X9. Once the archive was built and handed to the upload, the run
    deletes it afterwards, whatever happens in between (a failed upload, a
    failed job, a cancellation): each upload of a non-empty path in the
    log of the run is followed, later in that log, by the removal of that
    path. *)
Theorem startTransformByQ_removes_archive (K : Constants) (env : Env) (w : World) :
  exists new,
    log (startTransformByQ K env w).2 = log w ++ new
    /\ forall before s p after,
         new = before ++ (s, UploadPayload p) :: after -> p <> "" ->
         exists s', (s', RmSync p) ∈ after.
Proof.
  destruct (startTransformByQ_spec K env noUpload noUpload uploadRecorded uploadRemoved
              uploadRemoved
              (setTransformationToRunningState_no_upload K env)
              (try_catch_records K env)
              (postTransformationJob_removes K env)
              (cleanupTransformationJob_keeps_removed K env)
              (log w) [] w) as (new & Hl & H).
  - rewrite app_nil_r. reflexivity.
  - intros s p Hin. apply elem_of_nil in Hin. destruct Hin.
  - exists new. split; [exact Hl|exact H].
Qed.

(** Stop is pressed while the archive is built: the archive is uploaded
    and, after the run was abandoned, removed. *)
Lemma startTransformByQ_removes_archive_witness :
  exists before after s',
    log (startTransformByQ sampleConstants (sampleEnv false 15)
           (sampleWorld TransformByQStatus.NotStarted)).2
    = before ++ (TransformByQStatus.Cancelled, UploadPayload "payload.zip") :: after
    /\ (s', RmSync "payload.zip") ∈ after.
Proof.
  destruct (startTransformByQ_removes_archive sampleConstants (sampleEnv false 15)
              (sampleWorld TransformByQStatus.NotStarted)) as (new & Hl & H).
  change (log (sampleWorld TransformByQStatus.NotStarted) ++ new) with new in Hl.
  set (l := log (startTransformByQ sampleConstants (sampleEnv false 15)
                   (sampleWorld TransformByQStatus.NotStarted)).2) in *.
  exists (take 21 l), (drop 22 l).
  assert (Hsplit : l = take 21 l
                         ++ (TransformByQStatus.Cancelled, UploadPayload "payload.zip")
                         :: drop 22 l).
  { apply (bool_decide_unpack _). vm_compute. exact I. }
  destruct (H (take 21 l) TransformByQStatus.Cancelled "payload.zip" (drop 22 l))
    as (s' & Hrm).
  - rewrite <- Hl. exact Hsplit.
  - discriminate.
  - exists s'. split; [exact Hsplit|exact Hrm].
Defined.

(** ** One stop call at most *)

Section StopCalls.

Context (K : Constants) (env : Env).

Lemma stopCalls_app l1 l2 : stopCalls (l1 ++ l2) = (stopCalls l1 + stopCalls l2)%nat.
Proof. unfold stopCalls. rewrite List.filter_app, length_app. reflexivity. Qed.

Lemma stopCalls_one s e :
  (forall j, e <> StopCodeTransformation j) -> stopCalls [(s, e)] = 0%nat.
Proof.
  intros He. unfold stopCalls. cbn [List.filter isStopCall snd].
  destruct e; try reflexivity. destruct (He job eq_refl).
Qed.

Lemma notYetRunning_suspended e :
  (forall j, e <> StopCodeTransformation j) ->
  forall new w w1 tail,
    notYetRunning new w -> Suspended w e w1 tail ->
    notYetRunning (new ++ (status (state w), e) :: tail) w1.
Proof.
  intros He new w w1 tail [H0 Hs] (_ & _ & _ & _ & _ & [(Hst & _ & Ht)|(Hr & _)]).
  - unfold notYetRunning. rewrite Hst, Ht. split; [|exact Hs].
    rewrite stopCalls_app, H0. apply (stopCalls_one _ _ He).
  - contradiction.
Qed.

Lemma stoppedOnce_emit e :
  (forall j, e <> StopCodeTransformation j) ->
  forall new w, stoppedOnce new w -> stoppedOnce (new ++ [(status (state w), e)]) (logged e w).
Proof.
  intros He new w [H1 H2].
  unfold stoppedOnce. rewrite stopCalls_app, (stopCalls_one _ _ He), Nat.add_0_r.
  split; [exact H1|exact H2].
Qed.

Lemma stoppedOnce_suspended e :
  (forall j, e <> StopCodeTransformation j) ->
  forall new w w1 tail,
    stoppedOnce new w -> Suspended w e w1 tail ->
    stoppedOnce (new ++ (status (state w), e) :: tail) w1.
Proof.
  intros He new w w1 tail [H1 H2]
    (_ & _ & _ & _ & _ & [(Hst & _ & Ht)|(Hr & Hst & _ & Ht)]).
  - unfold stoppedOnce. rewrite Hst, Ht.
    rewrite stopCalls_app, (stopCalls_one _ _ He), Nat.add_0_r.
    split; [exact H1|exact H2].
  - unfold stoppedOnce. rewrite Hst.
    change (new ++ (status (state w), e) :: tail)
      with (new ++ [(status (state w), e)] ++ tail).
    rewrite !stopCalls_app, (stopCalls_one _ _ He), (H2 Hr).
    split; [exact Ht|]. cbn [setStatus status]. discriminate.
Qed.

Ltac at_most_once :=
  first [ apply stoppedOnce_emit; intros ?; discriminate
        | apply stoppedOnce_suspended; intros ?; discriminate
        | intros new w [H1 H2]; split;
          [exact H1 | first [exact H2 | intros Hr; discriminate Hr]] ].

Lemma setTransformationToRunningState_once :
  spec notYetRunning (setTransformationToRunningState K env) (onOk stoppedOnce).
Proof.
  unfold setTransformationToRunningState.
  apply (spec_bind _ _ _ (fun _ => notYetRunning)).
  - as_keeps. unfold setContextVariables. primitives. walk.
    all: apply notYetRunning_suspended; intros ?; discriminate.
  - intros u.
    apply (spec_bind _ _ _ (fun r new w => r = Ok tt /\ stoppedOnce new w)).
    + unfold setToRunning. apply spec_modify; [intros; reflexivity|].
      intros new w [H0 _]. split; [reflexivity|]. split; [rewrite H0; lia|].
      intros _. exact H0.
    + intros u'.
      eapply (spec_conseq stoppedOnce _ _ (fun _ => stoppedOnce)).
      * as_keeps. primitives. walk; at_most_once.
      * intros new w [_ H]. exact H.
      * intros [a|e] new w H; [exact H|exact I].
    + intros e new w [H _]. discriminate.
  - intros e new w _. exact I.
Qed.

Lemma try_catch_once :
  spec stoppedOnce
       (try_catch (startTransformByQ_steps K env) (transformationJobErrorHandler K))
       (onOk stoppedOnce).
Proof.
  apply keeps_onOk.
  unfold startTransformByQ_steps, preTransformationUploadCode, startTransformationJob,
    pollTransformationStatusUntilPlanReady, pollTransformationStatusUntilComplete,
    finalizeTransformationJob, transformationJobErrorHandler.
  primitives. cbv zeta. walk; at_most_once.
Qed.

Lemma postTransformationJob_once :
  spec stoppedOnce (postTransformationJob K env) (onOk stoppedOnce).
Proof. apply keeps_onOk. unfold postTransformationJob. primitives. walk; at_most_once. Qed.

Lemma cleanupTransformationJob_once :
  spec stoppedOnce (cleanupTransformationJob K env) (onOk stoppedOnce).
Proof. apply keeps_onOk. unfold cleanupTransformationJob. primitives. walk; at_most_once. Qed.

End StopCalls.

(** X10. A run that begins while no job is running sends at most one
    remote stop call, however often and whenever the user presses Stop. *)
Theorem startTransformByQ_stops_once (K : Constants) (env : Env) (w : World) :
  status (state w) <> TransformByQStatus.Running ->
  exists new,
    log (startTransformByQ K env w).2 = log w ++ new /\ (stopCalls new <= 1)%nat.
Proof.
  intros Hs.
  destruct (startTransformByQ_spec K env notYetRunning stoppedOnce stoppedOnce stoppedOnce
              stoppedOnce
              (setTransformationToRunningState_once K env)
              (try_catch_once K env)
              (postTransformationJob_once K env)
              (cleanupTransformationJob_once K env)
              (log w) [] w) as (new & Hl & H1 & _).
  - rewrite app_nil_r. reflexivity.
  - split; [reflexivity|exact Hs].
  - exists new. split; [exact Hl|exact H1].
Qed.

Lemma startTransformByQ_stops_once_witness :
  (stopCalls (log (startTransformByQ sampleConstants (sampleEnv false 15)
                     (sampleWorld TransformByQStatus.NotStarted)).2) <= 1)%nat.
Proof.
  destruct (startTransformByQ_stops_once sampleConstants (sampleEnv false 15)
              (sampleWorld TransformByQStatus.NotStarted)) as (new & Hl & H).
  - discriminate.
  - change (log (sampleWorld TransformByQStatus.NotStarted) ++ new) with new in Hl.
    rewrite Hl. exact H.
Defined.

(** ** After a cancelled check *)

Section AfterCancellation.

Context (K : Constants) (env : Env).

Lemma quietLog_emit e :
  negb (isCheck e) && negb (isRemoteCall e) = true ->
  forall new w, quietLog new w -> quietLog (new ++ [(status (state w), e)]) (logged e w).
Proof.
  intros He new w H. unfold quietLog in *. rewrite forallb_app, H.
  cbn [forallb]. unfold quiet. cbn [snd]. rewrite He. reflexivity.
Qed.

Lemma quietLog_suspended e :
  negb (isCheck e) && negb (isRemoteCall e) = true ->
  forall new w w1 tail,
    quietLog new w -> Suspended w e w1 tail ->
    quietLog (new ++ (status (state w), e) :: tail) w1.
Proof.
  intros He new w w1 tail H (_ & Hq & _). unfold quietLog in *.
  rewrite forallb_app, H. cbn [forallb]. unfold quiet at 1. cbn [snd].
  rewrite He, Hq. reflexivity.
Qed.

Ltac quietly :=
  first [ apply quietLog_emit; reflexivity
        | apply quietLog_suspended; reflexivity
        | intros ? ? H; exact H ].

Lemma setTransformationToRunningState_quiet :
  keeps quietLog (setTransformationToRunningState K env).
Proof.
  unfold setTransformationToRunningState, setContextVariables. primitives. walk; quietly.
Qed.

Lemma transformationJobErrorHandler_quiet error :
  keeps quietLog (transformationJobErrorHandler K error).
Proof. unfold transformationJobErrorHandler. primitives. cbv zeta. walk; quietly. Qed.

Lemma postTransformationJob_quiet : keeps quietLog (postTransformationJob K env).
Proof. unfold postTransformationJob. primitives. walk; quietly. Qed.

Lemma cleanupTransformationJob_quiet : keeps quietLog (cleanupTransformationJob K env).
Proof. unfold cleanupTransformationJob. primitives. walk; quietly. Qed.

(** The log of a run: quiet entries of the preparation, the entries of
    the steps, accepted by the monitor, and quiet entries of the error
    handler and of the finalization. *)
Lemma startTransformByQ_log (w : World) :
  exists before steps after,
    log (startTransformByQ K env w).2 = log w ++ before ++ steps ++ after
    /\ forallb quiet before = true
    /\ monitor Idle steps <> Bad
    /\ forallb quiet after = true.
Proof.
  destruct (startTransformByQ_blocks K env w) as [_ ->]. cbn [snd].
  destruct (setTransformationToRunningState_quiet (log w) [] w) as (A & HlA & HqA).
  { rewrite app_nil_r. reflexivity. }
  { reflexivity. }
  set (w1 := (setTransformationToRunningState K env w).2) in *.
  destruct (startTransformByQ_steps_triple K env Idle w1) as (S & HlS & Hout & _).
  { left. reflexivity. }
  { discriminate. }
  assert (Hm : monitor Idle S <> Bad).
  { unfold outcome in Hout.
    destruct ((startTransformByQ_steps K env w1).1) as [[]|err].
    - rewrite Hout. discriminate.
    - destruct Hout as [-> | [-> _]]; discriminate. }
  assert (Htry : exists H,
             log (try_catch (startTransformByQ_steps K env)
                    (transformationJobErrorHandler K) w1).2
             = log (startTransformByQ_steps K env w1).2 ++ [] ++ H
             /\ quietLog ([] ++ H)
                  (try_catch (startTransformByQ_steps K env)
                     (transformationJobErrorHandler K) w1).2).
  { unfold try_catch.
    destruct (startTransformByQ_steps K env w1) as [[[]|err] w2]; cbn [fst snd].
    - exists []. rewrite !app_nil_r. split; reflexivity.
    - apply (transformationJobErrorHandler_quiet err (log w2) [] w2).
      + rewrite app_nil_r. reflexivity.
      + reflexivity. }
  destruct Htry as (H & HlH & HqH).
  set (w3 := (try_catch (startTransformByQ_steps K env)
                (transformationJobErrorHandler K) w1).2) in *.
  destruct (postTransformationJob_quiet _ _ w3 HlH HqH) as (P & HlP & HqP).
  destruct (cleanupTransformationJob_quiet _ _ _ HlP HqP) as (C & HlC & HqC).
  exists ([] ++ A), S, ((([] ++ H) ++ P) ++ C).
  split; [|split; [exact HqA|split; [exact Hm|exact HqC]]].
  rewrite HlC, HlS, HlA. rewrite <- !app_assoc. reflexivity.
Qed.

End AfterCancellation.

(** X8. Once a cancellation check of a run has found the job cancelled,
    the run calls neither the transformation service nor the archive
    builder again: what follows in the log is the error handler and the
    finalization only. *)
Theorem startTransformByQ_no_call_after_cancelled_check
    (K : Constants) (env : Env) (w : World) :
  exists new,
    log (startTransformByQ K env w).2 = log w ++ new
    /\ forall before after,
         new = before ++ (TransformByQStatus.Cancelled, ThrowIfCancelled) :: after ->
         forall s e, (s, e) ∈ after -> isRemoteCall e = false.
Proof.
  destruct (startTransformByQ_log K env w) as (A & S & T & Hl & HA & Hm & HT).
  exists (A ++ S ++ T). split; [exact Hl|].
  intros before after Heq s e Hin.
  assert (HnA : (TransformByQStatus.Cancelled, ThrowIfCancelled) ∉ A).
  { intros Hc. destruct (quiet_elem A _ _ HA Hc) as [_ Hk]. discriminate. }
  assert (HnT : (TransformByQStatus.Cancelled, ThrowIfCancelled) ∉ T).
  { intros Hc. destruct (quiet_elem T _ _ HT Hc) as [_ Hk]. discriminate. }
  destruct (split_after_prefix _ _ _ _ _ HnA Heq) as (rest & -> & Heq2).
  destruct (split_before_suffix _ _ _ _ _ HnT Heq2) as (s2 & HS & ->).
  destruct (monitor_cancelled_check S rest s2 Hm HS) as [-> _].
  cbn [app] in Hin. destruct (quiet_elem T s e HT Hin) as [Hr _]. exact Hr.
Qed.

(** ** Stop, pressed twice *)

(** X7. A second stop request changes nothing: after [stopTransformByQ]
    another call, with any job id, returns normally and leaves the world
    as it is, so that pressing Stop again sends no second stop call. *)
Theorem stopTransformByQ_twice (K : Constants) (env : Env) (jobId1 jobId2 : string)
    (w : World) :
  stopTransformByQ K env jobId2 (stopTransformByQ K env jobId1 w).2
  = (Ok tt, (stopTransformByQ K env jobId1 w).2).
Proof.
  apply stopTransformByQ_idle.
  destruct (decide (status (state w) = TransformByQStatus.Running)) as [Hr|Hr].
  - destruct (stopTransformByQ_running K env jobId1 w Hr) as (wc & text & _ & Hst & _).
    rewrite Hst. cbn [setStatus status]. discriminate.
  - rewrite stopTransformByQ_idle by exact Hr. exact Hr.
Qed.

(** ** The step [transformCode] and the outcome of the job *)

Section TransformCode.

Context (K : Constants) (env : Env).

Lemma spec_and {A} (P P' : Assertion) (c : M A) (Q Q' : Result A -> Assertion) :
  spec P c Q -> spec P' c Q' ->
  spec (fun new w => P new w /\ P' new w) c (fun r new w => Q r new w /\ Q' r new w).
Proof.
  intros H H' l0 new w Hl [Hp Hp'].
  destruct (H l0 new w Hl Hp) as (ext & He & Hq).
  destruct (H' l0 new w Hl Hp') as (ext' & He' & Hq').
  assert (ext' = ext) as ->.
  { rewrite He in He'. apply app_inv_head in He'. apply app_inv_head in He'.
    symmetry. exact He'. }
  exists ext. split; [exact He|]. split; assumption.
Qed.

Lemma codeNotDone_suspended e :
  forall new w w1 tail,
    codeNotDone new w -> Suspended w e w1 tail ->
    codeNotDone (new ++ (status (state w), e) :: tail) w1.
Proof.
  intros new w w1 tail H (_ & _ & Hp & _). unfold codeNotDone in *. rewrite Hp. exact H.
Qed.

Ltac not_done :=
  first [ apply codeNotDone_suspended
        | intros ? ? H; exact H
        | intros ? ? H; unfold codeNotDone in *; fields;
          rewrite lookup_insert_ne by discriminate; exact H ].

Lemma finalizeTransformationJob_code finalStatus :
  spec anything (finalizeTransformationJob K env finalStatus)
       (fun r _ w =>
          match r with
          | Ok _ => sessionPlanProgress w !! "transformCode" = Some StepProgress.Succeeded
          | Throw _ => sessionPlanProgress w !! "transformCode" <> Some StepProgress.Succeeded
          end).
Proof.
  apply (spec_state (fun _ => True) (finalizeTransformationJob K env finalStatus)
           (fun r w =>
              match r with
              | Ok _ => sessionPlanProgress w !! "transformCode" = Some StepProgress.Succeeded
              | Throw _ =>
                  sessionPlanProgress w !! "transformCode" <> Some StepProgress.Succeeded
              end)).
  { apply finalizeTransformationJob_grows. }
  intros w _. unfold finalizeTransformationJob.
  destruct (negb _).
  - run. fields. rewrite lookup_insert_eq. discriminate.
  - destruct (bool_decide (finalStatus = "PARTIALLY_COMPLETED")).
    + unfold executeCommand, await. run. fields. apply lookup_insert_eq.
    + unfold executeCommand, await. run. fields. apply lookup_insert_eq.
Qed.

Lemma startTransformByQ_steps_code :
  spec codeNotDone (startTransformByQ_steps K env)
       (fun r _ w =>
          match r with
          | Ok _ => sessionPlanProgress w !! "transformCode" = Some StepProgress.Succeeded
          | Throw _ => sessionPlanProgress w !! "transformCode" <> Some StepProgress.Succeeded
          end).
Proof.
  unfold startTransformByQ_steps.
  apply keeps_then; [walk; not_done| |auto]. intros u.
  apply keeps_then;
    [unfold preTransformationUploadCode; primitives; walk; not_done| |auto].
  intros uploadId.
  apply keeps_then;
    [unfold startTransformationJob; primitives; walk; not_done| |auto].
  intros jobId.
  apply keeps_then;
    [unfold pollTransformationStatusUntilPlanReady; primitives; cbv zeta; walk; not_done
    | |auto].
  intros u'.
  apply keeps_then;
    [unfold pollTransformationStatusUntilComplete; primitives; walk; not_done| |auto].
  intros finalStatus.
  eapply spec_conseq; [apply finalizeTransformationJob_code| |auto].
  intros; exact I.
Qed.

Lemma transformationJobErrorHandler_fails error :
  spec runningOrCancelled (transformationJobErrorHandler K error) (fun _ => unsuccessful).
Proof.
  apply (spec_state (runningOrCancelled []) (transformationJobErrorHandler K error)
           (fun _ w => unsuccessful [] w)).
  { apply transformationJobErrorHandler_grows. }
  intros w Hw. unfold transformationJobErrorHandler. run.
  destruct (isCancelled w) eqn:Hc; cbn [negb]; fields.
  - apply isCancelled_true in Hc. right.
    destruct Hw as [Hw|Hw]; [congruence|exact Hw].
  - left. split; reflexivity.
Qed.

Lemma transformationJobErrorHandler_code error :
  keeps codeNotDone (transformationJobErrorHandler K error).
Proof. unfold transformationJobErrorHandler. primitives. cbv zeta. walk; not_done. Qed.

(** After the [try] and [catch] blocks: the job succeeded and the step is
    marked as succeeded, or the job failed or was cancelled and the step is
    not. *)
Lemma try_catch_code :
  spec (fun new w => runningOrCancelled new w /\ codeNotDone new w)
       (try_catch (startTransformByQ_steps K env) (transformationJobErrorHandler K))
       (fun _ new w =>
          (succeeded new w
           /\ sessionPlanProgress w !! "transformCode" = Some StepProgress.Succeeded)
          \/ (unsuccessful new w /\ codeNotDone new w)).
Proof.
  eapply spec_try_catch.
  - apply (spec_and _ _ _ _ _ (startTransformByQ_steps_settles K env)
             startTransformByQ_steps_code).
  - intros e. cbv beta.
    eapply spec_conseq.
    + apply (spec_and _ _ _ _ _ (transformationJobErrorHandler_fails e)
               (transformationJobErrorHandler_code e)).
    + intros new w H. exact H.
    + intros r new w H. right. exact H.
  - intros a new w H. left. exact H.
Qed.

Lemma setTransformationToRunningState_progress (w : World) :
  sessionPlanProgress (setTransformationToRunningState K env w).2 =
    <["transformCode" := StepProgress.Pending]>
      (<["generatePlan" := StepProgress.Pending]>
        (<["buildCode" := StepProgress.Pending]>
          (<["startJob" := StepProgress.Pending]> (sessionPlanProgress w)))).
Proof.
  unfold setTransformationToRunningState, setContextVariables, executeCommand, await.
  run. fields. repeat (rewrite interrupt_sessionPlanProgress; fields). reflexivity.
Qed.

End TransformCode.

Lemma cleanupTransformationJob_progress (K : Constants) (env : Env) (w : World) :
  sessionPlanProgress (cleanupTransformationJob K env w).2 = sessionPlanProgress w.
Proof.
  unfold cleanupTransformationJob, executeCommand, await. run. fields.
  repeat (rewrite interrupt_sessionPlanProgress; fields). reflexivity.
Qed.

(** The step progress after the first half of the [finally] block. *)
Lemma postTransformationJob_lookup (K : Constants) (env : Env) (w : World) (step : string) :
  step ∈ stepNames ->
  sessionPlanProgress (postTransformationJob K env w).2 !! step
  = Some (if decide (sessionPlanProgress w !! step = Some StepProgress.Succeeded)
          then StepProgress.Succeeded else StepProgress.Failed).
Proof.
  intros Hin. rewrite postTransformationJob_progress.
  unfold stepNames in Hin. rewrite !elem_of_cons, elem_of_nil in Hin.
  destruct Hin as [->|[->|[->|[->|[]]]]].
  - rewrite !failUnlessSucceeded_lookup_ne by discriminate.
    apply failUnlessSucceeded_lookup.
  - rewrite !failUnlessSucceeded_lookup_ne by discriminate.
    rewrite failUnlessSucceeded_lookup.
    rewrite failUnlessSucceeded_lookup_ne by discriminate. reflexivity.
  - rewrite !failUnlessSucceeded_lookup_ne by discriminate.
    rewrite failUnlessSucceeded_lookup.
    rewrite !failUnlessSucceeded_lookup_ne by discriminate. reflexivity.
  - rewrite failUnlessSucceeded_lookup.
    rewrite !failUnlessSucceeded_lookup_ne by discriminate. reflexivity.
Qed.

(** X2. After any run of [startTransformByQ] none of the four steps is
    left pending: each is [Succeeded] or [Failed]. *)
Theorem startTransformByQ_no_pending (K : Constants) (env : Env) (w : World)
    (step : string) :
  step ∈ stepNames ->
  let after := sessionPlanProgress (startTransformByQ K env w).2 !! step in
  after = Some StepProgress.Succeeded \/ after = Some StepProgress.Failed.
Proof.
  intros Hin. cbv zeta.
  destruct (startTransformByQ_blocks K env w) as [_ ->]. cbn [snd].
  rewrite cleanupTransformationJob_progress, (postTransformationJob_lookup _ _ _ _ Hin).
  destruct (decide _); [left|right]; reflexivity.
Qed.

Lemma startTransformByQ_no_pending_witness :
  sessionPlanProgress
    (startTransformByQ sampleConstants (sampleEnv false 15)
       (sampleWorld TransformByQStatus.NotStarted)).2 !! "generatePlan"
  = Some StepProgress.Failed.
Proof.
  destruct (startTransformByQ_no_pending sampleConstants (sampleEnv false 15)
              (sampleWorld TransformByQStatus.NotStarted) "generatePlan") as [H|H].
  - unfold stepNames. do 2 apply list_elem_of_further. apply list_elem_of_here.
  - exfalso. revert H. vm_compute. discriminate.
  - exact H.
Defined.





(** X11. After any run the step [transformCode] is marked as succeeded
    exactly when the history records the job as succeeded or partially
    succeeded; otherwise it is marked as failed. *)
Theorem startTransformByQ_transformCode_iff_succeeded (K : Constants) (env : Env)
    (w : World) :
  let w' := (startTransformByQ K env w).2 in
  exists entry,
    sessionJobHistory w' = [entry]
    /\ (sessionPlanProgress w' !! "transformCode" = Some StepProgress.Succeeded
        <-> h_status entry = "Succeeded" \/ h_status entry = "PartiallySucceeded")
    /\ (sessionPlanProgress w' !! "transformCode" = Some StepProgress.Succeeded
        \/ sessionPlanProgress w' !! "transformCode" = Some StepProgress.Failed).
Proof.
  cbv zeta.
  destruct (startTransformByQ_blocks K env w) as [_ ->]. cbn [snd].
  set (w1 := (setTransformationToRunningState K env w).2).
  assert (H1 : runningOrCancelled [] w1 /\ codeNotDone [] w1).
  { split.
    - destruct (setTransformationToRunningState_runs K env (log w) [] w) as (ext & _ & H).
      + rewrite app_nil_r. reflexivity.
      + exact I.
      + rewrite setTransformationToRunningState_returns in H. exact H.
    - unfold codeNotDone, w1. rewrite setTransformationToRunningState_progress.
      rewrite lookup_insert_eq. discriminate. }
  destruct (try_catch_code K env (log w1) [] w1) as (ext & _ & H3).
  { rewrite app_nil_r. reflexivity. }
  { exact H1. }
  set (w3 := (try_catch (startTransformByQ_steps K env) (transformationJobErrorHandler K)
                w1).2) in *.
  assert (Hnr : status (state w3) <> TransformByQStatus.Running).
  { destruct H3 as [[[[H _]|[H _]] _]|[[[H _]|[H _]] _]]; rewrite H; discriminate. }
  destruct (postTransformationJob_of_settled K env w3 Hnr) as (_ & _ & d & Hh).
  rewrite cleanupTransformationJob_history, cleanupTransformationJob_progress.
  rewrite Hh, postTransformationJob_lookup
    by (unfold stepNames; do 3 apply list_elem_of_further; apply list_elem_of_here).
  eexists. split; [reflexivity|]. cbn [h_status]. unfold getStatus.
  destruct H3 as [[[[Hs _]|[Hs _]] Hc]|[[[Hs _]|[Hs _]] Hc]]; rewrite Hs.
  - rewrite decide_True by exact Hc. split; [|left; reflexivity].
    split; [intros _; left; reflexivity|reflexivity].
  - rewrite decide_True by exact Hc. split; [|left; reflexivity].
    split; [intros _; right; reflexivity|reflexivity].
  - rewrite decide_False by exact Hc. split; [|right; reflexivity].
    split; [discriminate|intros [H|H]; discriminate].
  - rewrite decide_False by exact Hc. split; [|right; reflexivity].
    split; [discriminate|intros [H|H]; discriminate].
Qed.

(** ** The upload step and the plan step *)

(** X5. [preTransformationUploadCode] hands on what it got.  The upload
    id it returns is the answer of [uploadPayload] for the archive that
    [zipCode] built, and the path of that archive is in the job state.  An
    error it raises is the cancellation error or the very error that
    [zipCode] or [uploadPayload] threw; the path of an archive that was
    built is in the job state even when its upload failed. *)
Theorem preTransformationUploadCode_result (K : Constants) (env : Env) (w : World) :
  let r := (preTransformationUploadCode K env w).1 in
  let w' := (preTransformationUploadCode K env w).2 in
  match r with
  | Ok uploadId =>
      exists wz wu,
        zipCode env wz = Ok (payloadFilePath (state w'))
        /\ uploadPayload env (payloadFilePath (state w')) wu = Ok uploadId
  | Throw e =>
      e = TransformByQStoppedError
      \/ (exists wz, zipCode env wz = Throw e
                     /\ payloadFilePath (state w') = payloadFilePath (state w))
      \/ (exists wz wu,
            zipCode env wz = Ok (payloadFilePath (state w'))
            /\ uploadPayload env (payloadFilePath (state w')) wu = Throw e)
  end.
Proof.
  cbv zeta.
  unfold preTransformationUploadCode, executeCommand, sleep, throwIfCancelled, await. run.
  match goal with |- context [isCancelled ?x] => destruct (isCancelled x) end;
    cbv beta iota; cbn [fst snd].
  { left. reflexivity. }
  match goal with
  | |- context [zipCode env ?x] => destruct (zipCode env x) as [payload|err] eqn:Hz
  end; cbv beta iota; cbn [fst snd].
  2: { right. left. eexists. split; [exact Hz|].
       fields. repeat (rewrite interrupt_state; fields). reflexivity. }
  match goal with
  | |- context [uploadPayload env payload ?x] =>
      destruct (uploadPayload env payload x) as [uploadId|err] eqn:Hu
  end; cbv beta iota; cbn [fst snd].
  2: { right. right. fields. rewrite interrupt_state. fields.
       eexists. eexists. split; [exact Hz|exact Hu]. }
  match goal with |- context [isCancelled ?x] => destruct (isCancelled x) end;
    cbv beta iota; cbn [fst snd].
  { left. reflexivity. }
  fields. repeat (rewrite interrupt_state; fields).
  eexists. eexists. split; [exact Hz|exact Hu].
Qed.



(** ** Validation before the run *)

Lemma setMaven_returns (V : Local) (w : World) :
  let w' := (setMaven V w).2 in
  let name := mavenName (state w') in
  (setMaven V w).1 = Ok tt
  /\ (name = "mvn" \/ name = "./mvnw" \/ name = ".\mvnw.cmd")
  /\ status (state w') = status (state w)
  /\ jobId (state w') = jobId (state w).
Proof.
  cbv zeta. unfold setMaven, setMavenName. cbv zeta.
  destruct (decide (platform V = "win32")) as [Hp|Hp];
    match goal with |- context [existsSync V ?x] => destruct (existsSync V x) end.
  - rewrite decide_False by discriminate. rewrite decide_True by reflexivity.
    run. fields. split; [reflexivity|]. split; [right; right; reflexivity|].
    split; reflexivity.
  - run. fields. split; [reflexivity|]. split; [left; reflexivity|]. split; reflexivity.
  - rewrite decide_True by reflexivity.
    run. fields. split; [reflexivity|]. split; [right; left; reflexivity|].
    split; reflexivity.
  - run. fields. split; [reflexivity|]. split; [left; reflexivity|]. split; reflexivity.
Qed.

(** X12. [setMaven] returns normally and leaves one of three Maven names
    in the job state: ['mvn'] exactly when the project has no Maven
    wrapper for the platform, otherwise the wrapper with the relative
    prefix of the platform ([.\mvnw.cmd] on Windows, [./mvnw] elsewhere),
    never the bare file name.  The name it logs is the name it set. *)
Theorem setMaven_chooses (V : Local) (w : World) :
  let w' := (setMaven V w).2 in
  let name := mavenName (state w') in
  let wrapper := if decide (platform V = "win32") then "mvnw.cmd" else "mvnw" in
  (setMaven V w).1 = Ok tt
  /\ (name = "mvn" \/ name = "./mvnw" \/ name = ".\mvnw.cmd")
  /\ (name = "mvn" <-> existsSync V (join V (projectPath V) wrapper) = false)
  /\ (name = ".\mvnw.cmd" -> platform V = "win32")
  /\ (name = "./mvnw" -> platform V <> "win32")
  /\ log w' = log w ++ [(status (state w),
                         LoggerInfo ("CodeTransformation: using Maven " +:+ name))]
  /\ status (state w') = status (state w)
  /\ jobId (state w') = jobId (state w).
Proof.
  cbv zeta. unfold setMaven, setMavenName. cbv zeta.
  destruct (decide (platform V = "win32")) as [Hp|Hp].
  - destruct (existsSync V (join V (projectPath V) "mvnw.cmd")) eqn:He.
    + rewrite decide_False by discriminate. rewrite decide_True by reflexivity.
      run. fields. split; [reflexivity|]. split; [right; right; reflexivity|].
      split; [split; discriminate|]. split; [intros _; exact Hp|].
      split; [discriminate|]. repeat split.
    + run. fields. split; [reflexivity|]. split; [left; reflexivity|].
      split; [split; reflexivity|]. split; [discriminate|].
      split; [discriminate|]. repeat split.
  - destruct (existsSync V (join V (projectPath V) "mvnw")) eqn:He.
    + rewrite decide_True by reflexivity.
      run. fields. split; [reflexivity|]. split; [right; left; reflexivity|].
      split; [split; discriminate|]. split; [discriminate|].
      split; [intros _; exact Hp|]. repeat split.
    + run. fields. split; [reflexivity|]. split; [left; reflexivity|].
      split; [split; reflexivity|]. split; [discriminate|].
      split; [discriminate|]. repeat split.
Qed.

Lemma setMaven_chooses_witness :
  mavenName (state (setMaven (sampleLocal true (Some "1.8.0_292"))
                      (sampleWorld TransformByQStatus.NotStarted)).2) = "./mvnw".
Proof.
  destruct (setMaven_chooses (sampleLocal true (Some "1.8.0_292"))
              (sampleWorld TransformByQStatus.NotStarted))
    as (_ & [Hn|[Hn|Hn]] & Hmvn & Hwin & _).
  - apply Hmvn in Hn. revert Hn. vm_compute. discriminate.
  - exact Hn.
  - apply Hwin in Hn. revert Hn. vm_compute. discriminate.
Defined.

Lemma javaVersionUsedByMaven_1_8 (V : Local) (v : string) :
  String.prefix "1.8" v = true -> javaVersionUsedByMaven V (Some v) = Some (JDK8 V).
Proof.
  intros H. apply String.prefix_correct in H. cbn [String.length] in H.
  unfold javaVersionUsedByMaven. cbv zeta. rewrite H.
  rewrite decide_True by reflexivity. reflexivity.
Qed.

Lemma javaVersionUsedByMaven_11 (V : Local) (v : string) :
  String.prefix "11." v = true -> javaVersionUsedByMaven V (Some v) = Some (JDK11 V).
Proof.
  intros H. apply String.prefix_correct in H. cbn [String.length] in H.
  unfold javaVersionUsedByMaven. cbv zeta. rewrite H.
  rewrite decide_False by discriminate. rewrite decide_True by reflexivity. reflexivity.
Qed.

Lemma validateJavaHome_result (K : Constants) (env : Env) (V : Local) (w : World) :
  let w1 := interrupt K env (logged GetVersionData w) in
  (validateJavaHome K env V w).1
  = Ok (bool_decide (javaVersionUsedByMaven V (mavenJavaVersion V w1) = sourceJDKVersion V)).
Proof.
  cbv zeta. unfold validateJavaHome, await. run. fields.
  destruct (decide (javaVersionUsedByMaven V _ <> sourceJDKVersion V)) as [Hne|He].
  - fields. rewrite bool_decide_eq_false_2 by exact Hne. reflexivity.
  - fields. rewrite bool_decide_eq_true_2; [reflexivity|].
    destruct (decide (javaVersionUsedByMaven V
                 (mavenJavaVersion V (interrupt K env (logged GetVersionData w)))
               = sourceJDKVersion V)) as [H|H]; [exact H | contradiction].
Qed.

Lemma validateJavaHome_world (K : Constants) (env : Env) (V : Local) (w : World) :
  let r := (validateJavaHome K env V w).1 in
  let w' := (validateJavaHome K env V w).2 in
  let w1 := interrupt K env (logged GetVersionData w) in
  (r = Ok true \/ r = Ok false)
  /\ (r = Ok true -> w' = w1)
  /\ (r = Ok false ->
      log w' = log w1 ++ [(status (state w1),
                           TelemetryEmit "codeTransform_isDoubleClickedToTriggerInvalidProject")]
      /\ state w' = state w1).
Proof.
  cbv zeta. rewrite validateJavaHome_result.
  set (w1 := interrupt K env (logged GetVersionData w)).
  split; [destruct (bool_decide _); [left|right]; reflexivity|].
  split.
  - intros H. injection H as H. apply bool_decide_eq_true in H.
    unfold validateJavaHome, await. run. fields. fold w1.
    rewrite decide_False by (intros Hne; apply Hne; exact H). reflexivity.
  - intros H. injection H as H. apply bool_decide_eq_false in H.
    unfold validateJavaHome, await. run. fields. fold w1.
    rewrite decide_True by exact H. fields. split; reflexivity.
Qed.

(** X13. [validateJavaHome] never throws.  When Maven runs on a Java whose
    version begins with ['1.8'] the project passes exactly when its source
    version is JDK 8; when the version begins with ['11.'], exactly when its
    source version is JDK 11; when Maven reports no Java version at all,
    only a project without a source version passes.  The telemetry event of
    the failed validation is emitted exactly when the answer is [false],
    and it is then the last effect. *)
Theorem validateJavaHome_outcome (K : Constants) (env : Env) (V : Local) (w : World) :
  let r := (validateJavaHome K env V w).1 in
  let w' := (validateJavaHome K env V w).2 in
  let w1 := interrupt K env (logged GetVersionData w) in
  let failed := TelemetryEmit "codeTransform_isDoubleClickedToTriggerInvalidProject" in
  (r = Ok true \/ r = Ok false)
  /\ match mavenJavaVersion V w1 with
     | Some v =>
         (String.prefix "1.8" v = true -> (r = Ok true <-> sourceJDKVersion V = Some (JDK8 V)))
         /\ (String.prefix "11." v = true ->
             (r = Ok true <-> sourceJDKVersion V = Some (JDK11 V)))
     | None => r = Ok true <-> sourceJDKVersion V = None
     end
  /\ (r = Ok true -> w' = w1)
  /\ (r = Ok false -> log w' = log w1 ++ [(status (state w1), failed)]
                      /\ state w' = state w1).
Proof.
  cbv zeta.
  destruct (validateJavaHome_world K env V w) as (Hb & Htrue & Hfalse).
  split; [exact Hb|]. split; [|split; [exact Htrue | exact Hfalse]].
  rewrite validateJavaHome_result.
  set (w1 := interrupt K env (logged GetVersionData w)).
  assert (Hiff : forall o, Ok (bool_decide (o = sourceJDKVersion V)) = Ok true :> Result bool
                           <-> sourceJDKVersion V = o).
  { intros o. split.
    - intros H. injection H as H. apply bool_decide_eq_true in H. symmetry. exact H.
    - intros H. rewrite bool_decide_eq_true_2 by (symmetry; exact H). reflexivity. }
  destruct (mavenJavaVersion V w1) as [v|] eqn:Hv.
  - split; intros Hp.
    + rewrite (javaVersionUsedByMaven_1_8 V v Hp). apply Hiff.
    + rewrite (javaVersionUsedByMaven_11 V v Hp). apply Hiff.
  - apply (Hiff None).
Qed.

Lemma validateJavaHome_outcome_witness :
  (validateJavaHome sampleConstants (sampleEnv false 0) (sampleLocal true (Some "1.8.0_292"))
     (sampleWorld TransformByQStatus.NotStarted)).1 = Ok true.
Proof.
  destruct (validateJavaHome_outcome sampleConstants (sampleEnv false 0)
              (sampleLocal true (Some "1.8.0_292"))
              (sampleWorld TransformByQStatus.NotStarted)) as (_ & H & _).
  cbn [mavenJavaVersion sampleLocal] in H. destruct H as [H _].
  apply H; reflexivity.
Defined.

(** X14. [validateCanCompileProject] either returns normally or throws
    [JavaHomeNotSetError], and nothing else; it throws exactly when
    [validateJavaHome], run after [setMaven], answers [false].  The Maven
    name is chosen in both cases, and neither the status nor the job id
    of the state is touched unless the user stops the job meanwhile. *)
Theorem validateCanCompileProject_outcome (K : Constants) (env : Env) (V : Local)
    (w : World) :
  let r := (validateCanCompileProject K env V w).1 in
  let w' := (validateCanCompileProject K env V w).2 in
  let w0 := (setMaven V w).2 in
  let name := mavenName (state w') in
  (r = Ok tt \/ r = Throw (javaHomeNotSetError V))
  /\ (r = Ok tt <-> (validateJavaHome K env V w0).1 = Ok true)
  /\ (r = Throw (javaHomeNotSetError V) <-> (validateJavaHome K env V w0).1 = Ok false)
  /\ (name = "mvn" \/ name = "./mvnw" \/ name = ".\mvnw.cmd")
  /\ (userCancels env (logged GetVersionData w0) = false ->
      status (state w') = status (state w) /\ jobId (state w') = jobId (state w)).
Proof.
  cbv zeta.
  destruct (setMaven_returns V w) as (Hr & Hname & Hst & Hid).
  destruct (validateJavaHome_world K env V (setMaven V w).2) as (Hb & Htrue & Hfalse).
  unfold validateCanCompileProject. cbv [mbind M_bind].
  destruct (setMaven V w) as [r0 w0] eqn:Hs.
  cbn [fst snd] in *. subst r0.
  destruct (validateJavaHome K env V w0) as [rb wb] eqn:Hv. cbn [fst snd] in *.
  assert (Hmvn : mavenName (state wb) = mavenName (state w0)).
  { destruct Hb as [Hb|Hb].
    - rewrite (Htrue Hb). rewrite interrupt_state. fields. reflexivity.
    - destruct (Hfalse Hb) as [_ ->]. rewrite interrupt_state. fields. reflexivity. }
  assert (Hkeep : userCancels env (logged GetVersionData w0) = false ->
                  status (state wb) = status (state w) /\ jobId (state wb) = jobId (state w)).
  { intros Hu. rewrite <- Hst, <- Hid.
    assert (Hw1 : interrupt K env (logged GetVersionData w0) = logged GetVersionData w0).
    { unfold interrupt. rewrite Hu. reflexivity. }
    destruct Hb as [Hb|Hb].
    - rewrite (Htrue Hb), Hw1. fields. split; reflexivity.
    - destruct (Hfalse Hb) as [_ ->]. rewrite Hw1. fields. split; reflexivity. }
  destruct Hb as [Hb|Hb]; subst rb; cbn [negb]; run; fields.
  - split; [left; reflexivity|]. split; [split; reflexivity|].
    split; [split; discriminate|]. split; [rewrite Hmvn; exact Hname | exact Hkeep].
  - split; [right; reflexivity|]. split; [split; discriminate|].
    split; [split; reflexivity|]. split; [rewrite Hmvn; exact Hname | exact Hkeep].
Qed.

Lemma validateCanCompileProject_outcome_witness :
  status (state (validateCanCompileProject sampleConstants (sampleEnv false 0)
                   (sampleLocal false None) (sampleWorld TransformByQStatus.NotStarted)).2)
  = TransformByQStatus.NotStarted.
Proof.
  destruct (validateCanCompileProject_outcome sampleConstants (sampleEnv false 0)
              (sampleLocal false None) (sampleWorld TransformByQStatus.NotStarted))
    as (_ & _ & _ & _ & H).
  destruct H as [H _]; [vm_compute; reflexivity | exact H].
Defined.

(** ** Errors of the last poll *)

(** X15. [pollTransformationStatusUntilComplete] hands on the status the
    poll answered and leaves the failure message alone; whatever the poll
    throws, a stop error included, is replaced by the error
    ['Poll job failed'], after the failure message was set and the cause
    was logged.  So the function never throws the stop error itself. *)
Theorem pollTransformationStatusUntilComplete_masks_errors (K : Constants) (env : Env)
    (jobId' : string) (w : World) :
  let r := (pollTransformationStatusUntilComplete K env jobId' w).1 in
  let w' := (pollTransformationStatusUntilComplete K env jobId' w).2 in
  let valid := validStatesForCheckingDownloadUrl K in
  let wc := interrupt K env (logged (PollTransformationJob jobId' valid) w) in
  match r with
  | Ok status' =>
      pollTransformationJob env jobId' valid wc = Ok status'
      /\ jobFailureErrorMessage (state w') = jobFailureErrorMessage (state w)
  | Throw e =>
      e = JsError "Poll job failed"
      /\ jobFailureErrorMessage (state w') = failedToCompleteJobMessage K
      /\ exists cause s,
           pollTransformationJob env jobId' valid wc = Throw cause
           /\ last (log w')
              = Some (s, LoggerError ("CodeTransformation: " +:+ failedToCompleteJobMessage K)
                                     (Some cause))
  end.
Proof.
  cbv zeta. unfold pollTransformationStatusUntilComplete, await. run.
  destruct (pollTransformationJob env jobId' (validStatesForCheckingDownloadUrl K)
              (interrupt K env
                 (logged (PollTransformationJob jobId' (validStatesForCheckingDownloadUrl K)) w)))
    as [status'|cause] eqn:Hp; cbv beta iota; cbn [fst snd].
  - split; [reflexivity|]. rewrite interrupt_state. fields. reflexivity.
  - fields. split; [reflexivity|]. split; [reflexivity|].
    exists cause. eexists. split; [reflexivity|]. apply last_snoc.
Qed.

(** ** How the steps are left *)

Section Leaves.

Context (K : Constants) (env : Env).











End Leaves.

(** ** The calls of a step follow its first call *)

Section FollowUps.

Context (K : Constants) (env : Env).













End FollowUps.

(** ** A run that returns has polled the job to its end *)

Section Polled.

Context (K : Constants) (env : Env).






End Polled.

(** ** Once the job is cancelled no step begins *)

Section Persistence.

Context (K : Constants) (env : Env).

















End Persistence.

(** ** Cancellation checks before the steps *)



